(** * Aerodynamic lift simulator: flight-physics loop and autopilot modes

    Shallow embedding of [apps/Aerodynamic-lift-simulator]:
    - [App.tsx]: the [results] memo (aerodynamic model), the animation-frame
      [loop] (integration, altitude hold, autoland), the auto-mission
      interval, the mode toggles and [resetStats];
    - [components/StatsDashboard.tsx]: [generateChartData] and the load
      factor;
    - [types.ts], [constants.ts].

    Numbers.  A JavaScript [number] is modelled as an exact rational [Q]:
    decimal literals denote their decimal value, [Math.PI] is the exact
    value of the double it names, and [+ - * /] are exact.  Rounding to
    53 bits, infinities and NaN are outside this model; [/] is Rocq's total
    division, so a statement about a quotient describes the program where
    the divisor is not zero.  The divisions of the program are revisited
    with an explicit failure value in [safe_div] below.

    React state.  Each [useState] cell is a field of [Sim].  A handler or a
    tick is a function [Sim -> Sim] giving the state after React has
    applied the batched setters.  The values a callback reads from its
    closure ([params], [results], [altitude], the mode flags) are taken to
    be those of the state the tick starts from. *)

From Stdlib Require Import QArith Qminmax Qround Lqa ZArith Lia Bool List String.
From Stdlib Require Import DecimalString Ascii.
Import ListNotations.

Local Open Scope Q_scope.

(** ** JavaScript primitives *)

(** [Math.PI], the double 0x400921FB54442D18. *)
Definition Math_PI : Q := 884279719003555 # 281474976710656.

Definition Math_max (x y : Q) : Q := Qmax x y.
Definition Math_min (x y : Q) : Q := Qmin x y.

(** [Math.pow(x, 2)] is the only use of [Math.pow] in the program. *)
Definition Math_pow (x : Q) (n : Z) : Q := x ^ n.

(** [Math.round]: nearest integer, halves towards +infinity. *)
Definition Math_round (x : Q) : Z := Qfloor (x + (1 # 2)).

(** [x < y], [x > y], [x <= y], [x >= y] and [x === y] on numbers. *)
Definition js_lt (x y : Q) : bool := negb (Qle_bool y x).
Definition js_gt (x y : Q) : bool := js_lt y x.
Definition js_le (x y : Q) : bool := Qle_bool x y.
Definition js_ge (x y : Q) : bool := Qle_bool y x.
Definition js_eq (x y : Q) : bool := Qeq_bool x y.

(** ** constants.ts *)

Definition GRAVITY : Q := 9.80665.
Definition SEA_LEVEL_AIR_DENSITY : Q := 1.225.
Definition LIFT_COEFFICIENT_MAX : Q := 1.5.

(** ** types.ts *)

Inductive WingType : Type :=
| symmetric | cambered | flat_bottom | thin | airbus | stealth.

Definition WingType_eqb (a b : WingType) : bool :=
  match a, b with
  | symmetric, symmetric | cambered, cambered | flat_bottom, flat_bottom
  | thin, thin | airbus, airbus | stealth, stealth => true
  | _, _ => false
  end.

Record FlightParams : Type := mkFlightParams {
  weight : Q;
  wingSpan : Q;
  chordLength : Q;
  velocity : Q;
  headWind : Q;
  airDensity : Q;
  angleOfAttack : Q;
  wingType : WingType
}.

(** [SimulationResults].  The field [altitude] is named [resAltitude] here
    because the component state has a cell of the same name; the field
    [requiredTakeoffSpeed] needs [Math.sqrt] and is the separate definition
    [requiredTakeoffSpeed] below. *)
Record SimulationResults : Type := mkSimulationResults {
  liftForce : Q;
  dragForce : Q;
  isFlying : bool;
  pressureTop : Q;
  pressureBottom : Q;
  velocityTop : Q;
  velocityBottom : Q;
  resAltitude : Q
}.

(** Object spreads [{ ...prev, angleOfAttack: a }] and
    [{ ...prev, velocity: v, angleOfAttack: a }]. *)
Definition set_angleOfAttack (prev : FlightParams) (a : Q) : FlightParams :=
  {| weight := weight prev; wingSpan := wingSpan prev;
     chordLength := chordLength prev; velocity := velocity prev;
     headWind := headWind prev; airDensity := airDensity prev;
     angleOfAttack := a; wingType := wingType prev |}.

Definition set_velocity_angleOfAttack (prev : FlightParams) (v a : Q)
  : FlightParams :=
  {| weight := weight prev; wingSpan := wingSpan prev;
     chordLength := chordLength prev; velocity := v;
     headWind := headWind prev; airDensity := airDensity prev;
     angleOfAttack := a; wingType := wingType prev |}.

(** ** App.tsx: component state *)

(** The initial [params] (lines 10-19). *)
Definition initialParams : FlightParams :=
  {| weight := 575000; wingSpan := 79.75; chordLength := 10.6;
     velocity := 0; headWind := 0; airDensity := SEA_LEVEL_AIR_DENSITY;
     angleOfAttack := 4; wingType := airbus |}.

Definition MAX_VELOCITY : Q := 650.

Record Sim : Type := mkSim {
  params : FlightParams;
  altitude : Q;
  distance : Q;
  flightTime : Q;
  autoThrottle : bool;
  isPaused : bool;
  isAltHold : bool;
  isLanding : bool;
  landingStatus : string;
  lastTimeRef : Q
}.

Definition initialSim : Sim :=
  {| params := initialParams; altitude := 0; distance := 0; flightTime := 0;
     autoThrottle := false; isPaused := false; isAltHold := false;
     isLanding := false; landingStatus := EmptyString; lastTimeRef := 0 |}.

(** ** App.tsx: aerodynamic model (lines 80-118) *)

Definition currentAirDensity (altitude : Q) : Q :=
  let lapseRate := 0.00008 in
  Math_max 0.35 (SEA_LEVEL_AIR_DENSITY - altitude * lapseRate).

(** The chain of [if]s assigning [baseCl]. *)
Definition baseCl (w : WingType) : Q :=
  let baseCl := 0.45 in
  let baseCl := if WingType_eqb w symmetric then 0.0 else baseCl in
  let baseCl := if WingType_eqb w flat_bottom then 0.55 else baseCl in
  let baseCl := if WingType_eqb w thin then 0.15 else baseCl in
  let baseCl := if WingType_eqb w stealth then 0.12 else baseCl in
  baseCl.

Definition totalAirspeed (p : FlightParams) : Q := velocity p + headWind p.

Definition weightForce (p : FlightParams) : Q := weight p * GRAVITY.

(** The local [cl] of the [results] memo: the lift coefficient. *)
Definition cl (p : FlightParams) : Q :=
  let aoaRad := (angleOfAttack p * Math_PI) / 180 in
  let cl := 2 * Math_PI * aoaRad + baseCl (wingType p) in
  let cl :=
    if js_gt (angleOfAttack p) 16 then
      let stallFactor := Math_max 0 (1 - (angleOfAttack p - 16) * 0.2) in
      cl * stallFactor
    else cl in
  Math_max 0 cl.

Definition results (p : FlightParams) (altitude : Q) : SimulationResults :=
  let currentAirDensity := currentAirDensity altitude in
  let s := wingSpan p * chordLength p in
  let totalAirspeed := totalAirspeed p in
  let cl := cl p in
  let liftForce :=
    0.5 * currentAirDensity * Math_pow totalAirspeed 2 * s * cl in
  let weightForce := weightForce p in
  {| liftForce := liftForce;
     dragForce := liftForce * (if js_gt totalAirspeed 250 then 0.15 else 0.05);
     isFlying := js_gt liftForce weightForce && js_gt totalAirspeed 25;
     pressureTop :=
       -0.5 * currentAirDensity
       * (Math_pow (totalAirspeed * 1.2) 2 - Math_pow totalAirspeed 2);
     pressureBottom :=
       -0.5 * currentAirDensity
       * (Math_pow (totalAirspeed * 0.8) 2 - Math_pow totalAirspeed 2);
     velocityTop := totalAirspeed * 1.2;
     velocityBottom := totalAirspeed * 0.8;
     resAltitude := altitude |}.

(** ** App.tsx: the animation-frame loop (lines 120-199) *)

Definition massDamping (p : FlightParams) : Q := Math_max 10000 (weight p / 25).

Definition climbRate (p : FlightParams) (results : SimulationResults) : Q :=
  let netForce := liftForce results - weightForce p in
  netForce / massDamping p.

(** The updater passed to [setAltitude] (lines 134-139). *)
Definition updateAltitude (climbRate dt : Q) (autoThrottle : bool) (prev : Q)
  : Q :=
  let next := prev + climbRate * dt in
  if js_le next 0 then 0
  else if js_ge next 10000 && autoThrottle then 10000
  else next.

(** Altitude hold (lines 149-158).  [targetCl], [targetAoADeg] and
    [clampedAoA] are computed from the closure; the updater reads [prev]. *)
Definition targetCl (p : FlightParams) (currentAirDensity : Q) : Q :=
  let s := wingSpan p * chordLength p in
  weightForce p / (0.5 * currentAirDensity * Math_pow (totalAirspeed p) 2 * s).

Definition targetAoADeg (p : FlightParams) (currentAirDensity : Q) : Q :=
  ((targetCl p currentAirDensity
    - (if WingType_eqb (wingType p) airbus then 0.45 else 0.2))
   / (2 * Math_PI)) * (180 / Math_PI).

Definition clampedAoA (p : FlightParams) (currentAirDensity : Q) : Q :=
  Math_min 15 (Math_max (-5) (targetAoADeg p currentAirDensity)).

Definition altHoldUpdater (clampedAoA : Q) (prev : FlightParams)
  : FlightParams :=
  set_angleOfAttack prev
    (angleOfAttack prev + (clampedAoA - angleOfAttack prev) * 0.02).

Definition altHoldBranch (st : Sim) (prev : FlightParams) : FlightParams :=
  let results := results (params st) (altitude st) in
  if isAltHold st && negb (isLanding st) && isFlying results then
    if js_gt (totalAirspeed (params st)) 10 then
      altHoldUpdater
        (clampedAoA (params st) (currentAirDensity (altitude st))) prev
    else prev
  else prev.

(** Autoland (lines 160-191): the updater passed to [setParams], together
    with the values it leaves in [isLanding] and [landingStatus].  The
    branch runs only while [isLanding] is set, so [isLanding] stays [true]
    unless the updater clears it. *)
Definition landingUpdater (altitude : Q) (results : SimulationResults)
    (weightForce massDamping : Q) (prev : FlightParams)
  : FlightParams * bool * string :=
  let targetApproachSpeed := 75 in
  let targetDescentRate := if js_gt altitude 50 then -6 else -2 in
  let nextVel := velocity prev in
  let nextAoA := angleOfAttack prev in
  let currentVSI := (liftForce results - weightForce) / massDamping in
  let nextVel :=
    if js_gt nextVel (targetApproachSpeed + 2) then nextVel - 0.4
    else if js_lt nextVel (targetApproachSpeed - 2) then nextVel + 0.4
    else nextVel in
  let '(nextVel, nextAoA, landing, status) :=
    if js_gt altitude 15 then
      let vsiError := targetDescentRate - currentVSI in
      (nextVel, nextAoA + vsiError * 0.08, true,
       "GLIDESLOPE INTERCEPT"%string)
    else if js_gt altitude 0.5 then
      let nextAoA := nextAoA + (8.5 - nextAoA) * 0.1 in
      (nextVel * 0.99, nextAoA, true, "FLARE / REDUCE THRUST"%string)
    else
      let nextVel := Math_max 0 (nextVel - 2.5) in
      if js_eq nextVel 0 then (nextVel, 2, false, EmptyString)
      else (nextVel, 2, true, "TOUCHDOWN / BRAKING"%string) in
  (set_velocity_angleOfAttack prev nextVel
     (Math_max (-2) (Math_min 15 nextAoA)),
   landing, status).

Definition landingBranch (st : Sim) (prev : FlightParams)
  : FlightParams * bool * string :=
  if isLanding st then
    landingUpdater (altitude st) (results (params st) (altitude st))
      (weightForce (params st)) (massDamping (params st)) prev
  else (prev, isLanding st, landingStatus st).

(** One call of [loop(time)]; [time] is the frame timestamp in ms. *)
Definition loop (time : Q) (st : Sim) : Sim :=
  if negb (isPaused st) then
    let last := if js_eq (lastTimeRef st) 0 then time else lastTimeRef st in
    let dt := (time - last) / 1000 in
    let results := results (params st) (altitude st) in
    let params1 := altHoldBranch st (params st) in
    let '(params2, landing, status) := landingBranch st params1 in
    {| params := params2;
       altitude :=
         updateAltitude (climbRate (params st) results) dt (autoThrottle st)
           (altitude st);
       distance := distance st + velocity (params st) * dt;
       flightTime :=
         if js_gt (velocity (params st)) 0 || isFlying results
         then flightTime st + dt else flightTime st;
       autoThrottle := autoThrottle st;
       isPaused := isPaused st;
       isAltHold := isAltHold st;
       isLanding := landing;
       landingStatus := status;
       lastTimeRef := time |}
  else
    {| params := params st; altitude := altitude st; distance := distance st;
       flightTime := flightTime st; autoThrottle := autoThrottle st;
       isPaused := isPaused st; isAltHold := isAltHold st;
       isLanding := isLanding st; landingStatus := landingStatus st;
       lastTimeRef := 0 |}.

(** ** App.tsx: the auto-mission interval (lines 201-226) *)

(** The updater passed to [setParams] every 50 ms, with the value it
    passes to [setIsAltHold], if any. *)
Definition autoMissionUpdater (altitude : Q) (results : SimulationResults)
    (p : FlightParams) : FlightParams * option bool :=
  let targetCruiseSpeed := 700 / 3.6 in
  let targetClimbAltitude := 10000 in
  let nextVel := velocity p in
  let nextAoA := angleOfAttack p in
  let '(nextVel, nextAoA, hold) :=
    if js_lt altitude 50 then
      (Math_min (nextVel + 1.5) MAX_VELOCITY,
       (if isFlying results then 12 else nextAoA), None)
    else if js_lt altitude (targetClimbAltitude - 100) then
      ((if js_lt nextVel targetCruiseSpeed then nextVel + 1.0 else nextVel),
       12, Some false)
    else
      (nextVel + (targetCruiseSpeed - nextVel) * 0.1, nextAoA, Some true) in
  (set_velocity_angleOfAttack p nextVel nextAoA, hold).

Definition autoMissionTick (st : Sim) : Sim :=
  if autoThrottle st && negb (isPaused st) && negb (isLanding st) then
    let '(p, hold) :=
      autoMissionUpdater (altitude st) (results (params st) (altitude st))
        (params st) in
    {| params := p; altitude := altitude st; distance := distance st;
       flightTime := flightTime st; autoThrottle := autoThrottle st;
       isPaused := isPaused st;
       isAltHold := match hold with Some b => b | None => isAltHold st end;
       isLanding := isLanding st; landingStatus := landingStatus st;
       lastTimeRef := lastTimeRef st |}
  else st.

(** ** App.tsx: handlers (lines 228-250 and the HOLD button, line 432) *)

Definition toggleLanding (st : Sim) : Sim :=
  let results := results (params st) (altitude st) in
  if negb (isFlying results) && js_le (altitude st) 0 then st
  else
    {| params := params st; altitude := altitude st; distance := distance st;
       flightTime := flightTime st;
       autoThrottle := if autoThrottle st then false else autoThrottle st;
       isPaused := isPaused st;
       isAltHold := if isAltHold st then false else isAltHold st;
       isLanding := negb (isLanding st);
       landingStatus := landingStatus st; lastTimeRef := lastTimeRef st |}.

Definition toggleAutoV (st : Sim) : Sim :=
  {| params := params st; altitude := altitude st; distance := distance st;
     flightTime := flightTime st;
     autoThrottle := negb (autoThrottle st);
     isPaused := isPaused st;
     isAltHold := if negb (autoThrottle st) then false else isAltHold st;
     isLanding := if isLanding st then false else isLanding st;
     landingStatus := landingStatus st; lastTimeRef := lastTimeRef st |}.

(** The HOLD button: [onClick={() => setIsAltHold(!isAltHold)}] with
    [disabled={isLanding || autoThrottle}]; a disabled button does not
    call its handler. *)
Definition toggleAltHold (st : Sim) : Sim :=
  if isLanding st || autoThrottle st then st
  else
    {| params := params st; altitude := altitude st; distance := distance st;
       flightTime := flightTime st; autoThrottle := autoThrottle st;
       isPaused := isPaused st;
       isAltHold := negb (isAltHold st);
       isLanding := isLanding st;
       landingStatus := landingStatus st; lastTimeRef := lastTimeRef st |}.

Definition resetStats (st : Sim) : Sim :=
  {| params := set_velocity_angleOfAttack (params st) 0 4;
     altitude := 0; distance := 0; flightTime := 0;
     autoThrottle := false;
     isPaused := isPaused st;
     isAltHold := false;
     isLanding := false;
     landingStatus := landingStatus st;
     lastTimeRef := 0 |}.

(** The six wing-profile buttons (lines 270-277, 399-405). *)
Definition selectWingProfile (id : WingType) (weight span chord : Q)
    (st : Sim) : Sim :=
  {| params :=
       {| weight := weight; wingSpan := span; chordLength := chord;
          velocity := velocity (params st); headWind := headWind (params st);
          airDensity := airDensity (params st);
          angleOfAttack := angleOfAttack (params st); wingType := id |};
     altitude := altitude st; distance := distance st;
     flightTime := flightTime st; autoThrottle := autoThrottle st;
     isPaused := isPaused st; isAltHold := isAltHold st;
     isLanding := isLanding st; landingStatus := landingStatus st;
     lastTimeRef := lastTimeRef st |}.

(** ** components/StatsDashboard.tsx *)

Module StatsDashboard.

(** The body of the [for] loop of [generateChartData] (lines 15-31) at
    speed [v]: the pushed point [{ speed, lift }]. *)
Definition chartPoint (p : FlightParams) (v : Q) : Z * Z :=
  let s := wingSpan p * chordLength p in
  let aoaRad := (angleOfAttack p * Math_PI) / 180 in
  let cl := 2 * Math_PI * aoaRad + baseCl (wingType p) in
  let cl :=
    if js_gt (angleOfAttack p) 16 then
      cl * Math_max 0 (1 - (angleOfAttack p - 16) * 0.15)
    else cl in
  let lift :=
    0.5 * airDensity p * Math_pow (v + headWind p) 2 * s * Math_max 0 cl in
  (Math_round (v * 3.6), Math_round lift).

(** [for (let v = 0; v <= maxV; v += 50)], at most [fuel] iterations. *)
Fixpoint forSpeeds {A : Type} (fuel : nat) (v maxV : Q) (body : Q -> A)
  : list A :=
  match fuel with
  | O => []
  | S fuel' =>
      if js_le v maxV then body v :: forSpeeds fuel' (v + 50) maxV body
      else []
  end.

Definition generateChartData (p : FlightParams) : list (Z * Z) :=
  let maxV := 650 in
  forSpeeds 32 0 maxV (chartPoint p).

(** The speeds the loop visits. *)
Definition sampledSpeeds : list Q := forSpeeds 32 0 650 (fun v => v).

End StatsDashboard.

(** ** Divisions and square roots with an explicit failure value

    In JavaScript [x / 0] and [Math.sqrt] of a negative number do not
    raise; they put an infinity or NaN into the state.  [safe_div] and
    [safe_sqrt] return [None] exactly there. *)

Definition safe_div (n d : Q) : option Q :=
  if js_eq d 0 then None else Some (n / d).

(** The argument of [Math.sqrt] in [requiredTakeoffSpeed] (line 105). *)
Definition requiredTakeoffSpeed_radicand (p : FlightParams) (altitude : Q)
  : option Q :=
  let currentAirDensity := currentAirDensity altitude in
  let s := wingSpan p * chordLength p in
  safe_div (2 * weightForce p)
    (currentAirDensity * s * Math_max 0.1 (cl p)).

Section Sqrt.

(** [Math.sqrt] has no rational model; it is a parameter. *)
Variable Math_sqrt : Q -> Q.

Definition safe_sqrt (x : Q) : option Q :=
  if js_le 0 x then Some (Math_sqrt x) else None.

Definition requiredTakeoffSpeed (p : FlightParams) (altitude : Q)
  : option Q :=
  match requiredTakeoffSpeed_radicand p altitude with
  | Some q =>
      match safe_sqrt q with
      | Some r => Some (r - headWind p)
      | None => None
      end
  | None => None
  end.

End Sqrt.

(** [targetCl] (line 153), [climbRate] (line 131) and the dashboard's
    load factor (StatsDashboard.tsx, line 53) with the checked division. *)
Definition targetCl_checked (p : FlightParams) (currentAirDensity : Q)
  : option Q :=
  let s := wingSpan p * chordLength p in
  safe_div (weightForce p)
    (0.5 * currentAirDensity * Math_pow (totalAirspeed p) 2 * s).

Definition climbRate_checked (p : FlightParams) (results : SimulationResults)
  : option Q :=
  let netForce := liftForce results - weightForce p in
  safe_div netForce (massDamping p).

Definition loadFactor_checked (results : SimulationResults)
    (p : FlightParams) : option Q :=
  safe_div (liftForce results) (weight p * 9.81).

(** ** The mode flags *)

Inductive Mode : Type := AutoMission | AltitudeHold | Autoland.

Definition active (m : Mode) (st : Sim) : bool :=
  match m with
  | AutoMission => autoThrottle st
  | AltitudeHold => isAltHold st
  | Autoland => isLanding st
  end.

Definition toggle (m : Mode) (st : Sim) : Sim :=
  match m with
  | AutoMission => toggleAutoV st
  | AltitudeHold => toggleAltHold st
  | Autoland => toggleLanding st
  end.

Definition Mode_eqb (a b : Mode) : bool :=
  match a, b with
  | AutoMission, AutoMission | AltitudeHold, AltitudeHold
  | Autoland, Autoland => true
  | _, _ => false
  end.

(** The toggle of [m] activates it: off before, on after. *)
Definition activates (m : Mode) (st : Sim) : bool :=
  negb (active m st) && active m (toggle m st).

(** Every mode other than [m] is off. *)
Definition others_inactive (m : Mode) (st : Sim) : bool :=
  forallb (fun m' => Mode_eqb m' m || negb (active m' st))
    [AutoMission; AltitudeHold; Autoland].

(** ** The altitude-hold law as the specification words it

    The target angle inverts [cl = 2 PI (aoa PI / 180) + baseCl] with the
    wing type's own [baseCl]. *)
Definition spec_targetAoADeg (p : FlightParams) (currentAirDensity : Q) : Q :=
  ((targetCl p currentAirDensity - baseCl (wingType p)) / (2 * Math_PI))
  * (180 / Math_PI).

Definition spec_altHold_angleOfAttack (p : FlightParams)
    (currentAirDensity : Q) : Q :=
  let target :=
    Math_min 15 (Math_max (-5) (spec_targetAoADeg p currentAirDensity)) in
  angleOfAttack p + (target - angleOfAttack p) * 0.02.

(** The velocity the aerodynamic model is asked about when the dashboard
    samples speed [v]. *)
Definition set_velocity (p : FlightParams) (v : Q) : FlightParams :=
  set_velocity_angleOfAttack p v (angleOfAttack p).

(** The fields of [FlightParams] that no autopilot tick is meant to touch. *)
Definition same_airframe (p p' : FlightParams) : Prop :=
  weight p' = weight p /\ wingSpan p' = wingSpan p
  /\ chordLength p' = chordLength p /\ headWind p' = headWind p
  /\ airDensity p' = airDensity p /\ wingType p' = wingType p.

(** A run of mode buttons pressed one after the other, first to last. *)
Fixpoint toggles (ms : list Mode) (st : Sim) : Sim :=
  match ms with
  | [] => st
  | m :: ms' => toggles ms' (toggle m st)
  end.

(** At most one of the three mode flags is set. *)
Definition at_most_one_mode (st : Sim) : bool :=
  match autoThrottle st, isAltHold st, isLanding st with
  | true, true, _ | true, _, true | _, true, true => false
  | _, _, _ => true
  end.

(** ** Sample states used by the examples *)

(** The default aircraft at 220 m/s: airborne (spec, section 8). *)
Definition cruisingSim : Sim :=
  {| params := set_velocity initialParams 220; altitude := 1000;
     distance := 0; flightTime := 0; autoThrottle := false;
     isPaused := false; isAltHold := false; isLanding := false;
     landingStatus := EmptyString; lastTimeRef := 0 |}.

(** The "Cessna 172" preset at 60 m/s with altitude hold engaged. *)
Definition cessnaParams : FlightParams :=
  {| weight := 1111; wingSpan := 11.0; chordLength := 1.6; velocity := 60;
     headWind := 0; airDensity := SEA_LEVEL_AIR_DENSITY; angleOfAttack := 4;
     wingType := cambered |}.

Definition cessnaHoldSim : Sim :=
  {| params := cessnaParams; altitude := 0; distance := 0; flightTime := 0;
     autoThrottle := false; isPaused := false; isAltHold := true;
     isLanding := false; landingStatus := EmptyString; lastTimeRef := 0 |}.

(** The same flight with another wing type. *)
Definition cessnaHoldSim_with (w : WingType) : Sim :=
  {| params :=
       {| weight := 1111; wingSpan := 11.0; chordLength := 1.6;
          velocity := 60; headWind := 0;
          airDensity := SEA_LEVEL_AIR_DENSITY; angleOfAttack := 4;
          wingType := w |};
     altitude := 0; distance := 0; flightTime := 0;
     autoThrottle := false; isPaused := false; isAltHold := true;
     isLanding := false; landingStatus := EmptyString; lastTimeRef := 0 |}.

(** The default aircraft rolling out on the runway under autoland. *)
Definition rolloutSim (v : Q) : Sim :=
  {| params := set_velocity initialParams v; altitude := 0; distance := 0;
     flightTime := 0; autoThrottle := false; isPaused := false;
     isAltHold := false; isLanding := true;
     landingStatus := "TOUCHDOWN / BRAKING"%string; lastTimeRef := 0 |}.

(** The default aircraft under auto-mission at a given altitude and speed. *)
Definition missionSim (alt v : Q) (hold : bool) : Sim :=
  {| params := set_velocity initialParams v; altitude := alt; distance := 0;
     flightTime := 0; autoThrottle := true; isPaused := false;
     isAltHold := hold; isLanding := false; landingStatus := EmptyString;
     lastTimeRef := 0 |}.

(** ** App.tsx: the remaining handlers and derived values *)

(** The FREEZE / RESUME button (line 306). *)
Definition togglePause (st : Sim) : Sim :=
  {| params := params st; altitude := altitude st; distance := distance st;
     flightTime := flightTime st; autoThrottle := autoThrottle st;
     isPaused := negb (isPaused st); isAltHold := isAltHold st;
     isLanding := isLanding st; landingStatus := landingStatus st;
     lastTimeRef := lastTimeRef st |}.

(** The vertical speed shown on the HUD (line 279). *)
Definition currentVSI (p : FlightParams) (results : SimulationResults) : Q :=
  (liftForce results - weight p * GRAVITY) / 10000.

(** [wingProfiles] (lines 270-277); the label and the icon of a profile
    are display strings and are left out. *)
Record WingProfile : Type := mkWingProfile {
  wp_id : WingType;
  wp_weight : Q;
  wp_span : Q;
  wp_chord : Q
}.

Definition wingProfiles : list WingProfile :=
  [ {| wp_id := airbus; wp_weight := 575000; wp_span := 79.75;
       wp_chord := 10.6 |};
    {| wp_id := stealth; wp_weight := 29900; wp_span := 10.7;
       wp_chord := 5.5 |};
    {| wp_id := cambered; wp_weight := 1111; wp_span := 11.0;
       wp_chord := 1.6 |};
    {| wp_id := symmetric; wp_weight := 950; wp_span := 7.5;
       wp_chord := 1.4 |};
    {| wp_id := flat_bottom; wp_weight := 550; wp_span := 10.7;
       wp_chord := 1.6 |};
    {| wp_id := thin; wp_weight := 12000; wp_span := 9.96;
       wp_chord := 3.5 |} ].

(** The [onClick] of the button of profile [wp] (lines 399-405). *)
Definition clickWingProfile (wp : WingProfile) (st : Sim) : Sim :=
  selectWingProfile (wp_id wp) (wp_weight wp) (wp_span wp) (wp_chord wp) st.




(** *** [formatTime] (lines 259-268) *)

Definition Math_floor (x : Q) : Z := Qfloor x.

(** [x % m] on numbers: the remainder of the division truncated towards
    zero, which has the sign of [x]. *)
Definition js_trunc (x : Q) : Z :=
  if Qle_bool 0 x then Qfloor x else Qceiling x.

Definition js_rem (x m : Q) : Q := x - m * inject_Z (js_trunc (x / m)).

(** [String(n)] for an integral number (below 1e21, where JavaScript
    prints all the digits). *)
Definition String_of_number (n : Z) : string :=
  NilZero.string_of_int (Z.to_int n).

(** After [.map(v => v < 10 ? "0" + v : v)] an element is a string or
    still a number. *)
Inductive TimePart : Type :=
| PartString (s : string)
| PartNumber (n : Z).

Definition padPart (v : Z) : TimePart :=
  if (v <? 10)%Z then PartString ("0" ++ String_of_number v)
  else PartNumber v.

(** [(v, i) => v !== "00" || i > 0]; a number is never [===] a string. *)
Definition keepPart (v : TimePart) (i : nat) : bool :=
  negb (match v with
        | PartString s => String.eqb s "00"
        | PartNumber _ => false
        end)
  || (0 <? i)%nat.

Fixpoint filter_indexed {A : Type} (f : A -> nat -> bool) (i : nat)
    (l : list A) : list A :=
  match l with
  | [] => []
  | x :: l' =>
      if f x i then x :: filter_indexed f (S i) l'
      else filter_indexed f (S i) l'
  end.

Definition partToString (v : TimePart) : string :=
  match v with
  | PartString s => s
  | PartNumber n => String_of_number n
  end.

Definition formatTime (totalSeconds : Q) : string :=
  let hours := Math_floor (totalSeconds / 3600) in
  let minutes := Math_floor (js_rem totalSeconds 3600 / 60) in
  let seconds := Math_floor (js_rem totalSeconds 60) in
  String.concat ":"
    (map partToString
       (filter_indexed keepPart 0
          (map padPart [hours; minutes; seconds]))).

(** ** SimulationCanvas.tsx: placement and size of the drawn wing *)

Module SimulationCanvas.

(** [draw], the lines that place the wing; [height] is the height of the
    canvas. *)
Definition visualAltOffset (height : Q) (results : SimulationResults) : Q :=
  Math_min (height * 0.4) (resAltitude results / 10).

Definition centerY (height : Q) (results : SimulationResults) : Q :=
  let groundY := height - 120 in
  (groundY - 50) - visualAltOffset height results.

Definition wingLength (p : FlightParams) (zoom : Q) : Q :=
  let baseScale := 250 / Math_max 1 (chordLength p / 2) in
  chordLength p * baseScale * zoom.

End SimulationCanvas.

(** ** The elapsed time of a frame *)

(** [dt] as [loop] computes it (lines 124-125): 0 on the first frame after
    [lastTimeRef] was cleared. *)
Definition frame_dt (time : Q) (st : Sim) : Q :=
  let last := if js_eq (lastTimeRef st) 0 then time else lastTimeRef st in
  (time - last) / 1000.

(** Frames at the timestamps [ts], one after the other. *)
Fixpoint frames (ts : list Q) (st : Sim) : Sim :=
  match ts with
  | [] => st
  | t :: ts' => frames ts' (loop t st)
  end.

(** The timestamps do not run backwards, starting from [t0]. *)
Fixpoint ascending (t0 : Q) (ts : list Q) : Prop :=
  match ts with
  | [] => True
  | t :: ts' => t0 <= t /\ ascending t ts'
  end.

(** The default aircraft in the flare, 10 m above the runway. *)
Definition flareSim (v : Q) : Sim :=
  {| params := set_velocity initialParams v; altitude := 10; distance := 0;
     flightTime := 0; autoThrottle := false; isPaused := false;
     isAltHold := false; isLanding := true;
     landingStatus := EmptyString; lastTimeRef := 0 |}.

(** The "airbus" aircraft in level cruise with altitude hold on. *)
Definition airbusHoldSim : Sim :=
  {| params := set_velocity initialParams 220; altitude := 1000;
     distance := 0; flightTime := 0; autoThrottle := false;
     isPaused := false; isAltHold := true; isLanding := false;
     landingStatus := EmptyString; lastTimeRef := 0 |}.

(** Standing on the ground in still air with no autopilot on a frame. *)
Definition at_rest (st : Sim) : Prop :=
  velocity (params st) == 0 /\ headWind (params st) == 0
  /\ altitude st == 0 /\ 0 <= weight (params st)
  /\ isAltHold st = false /\ isLanding st = false /\ isPaused st = false.

(** ** App.tsx: the sliders and number inputs (lines 418-457)

    Each input calls [setParams({...params, field: Number(value)})]; a
    disabled input does not call its handler. *)

Definition set_params (st : Sim) (p : FlightParams) : Sim :=
  {| params := p; altitude := altitude st; distance := distance st;
     flightTime := flightTime st; autoThrottle := autoThrottle st;
     isPaused := isPaused st; isAltHold := isAltHold st;
     isLanding := isLanding st; landingStatus := landingStatus st;
     lastTimeRef := lastTimeRef st |}.

Definition inputVelocity (v : Q) (st : Sim) : Sim :=
  if isLanding st || autoThrottle st then st
  else set_params st
         (set_velocity_angleOfAttack (params st) v
            (angleOfAttack (params st))).

Definition inputAngleOfAttack (a : Q) (st : Sim) : Sim :=
  if isAltHold st || isLanding st || autoThrottle st then st
  else set_params st (set_angleOfAttack (params st) a).

Definition inputHeadWind (w : Q) (st : Sim) : Sim :=
  set_params st
    {| weight := weight (params st); wingSpan := wingSpan (params st);
       chordLength := chordLength (params st);
       velocity := velocity (params st); headWind := w;
       airDensity := airDensity (params st);
       angleOfAttack := angleOfAttack (params st);
       wingType := wingType (params st) |}.

Definition inputWeight (w : Q) (st : Sim) : Sim :=
  set_params st
    {| weight := w; wingSpan := wingSpan (params st);
       chordLength := chordLength (params st);
       velocity := velocity (params st); headWind := headWind (params st);
       airDensity := airDensity (params st);
       angleOfAttack := angleOfAttack (params st);
       wingType := wingType (params st) |}.

Definition inputWingSpan (x : Q) (st : Sim) : Sim :=
  set_params st
    {| weight := weight (params st); wingSpan := x;
       chordLength := chordLength (params st);
       velocity := velocity (params st); headWind := headWind (params st);
       airDensity := airDensity (params st);
       angleOfAttack := angleOfAttack (params st);
       wingType := wingType (params st) |}.

Definition inputChordLength (x : Q) (st : Sim) : Sim :=
  set_params st
    {| weight := weight (params st); wingSpan := wingSpan (params st);
       chordLength := x;
       velocity := velocity (params st); headWind := headWind (params st);
       airDensity := airDensity (params st);
       angleOfAttack := angleOfAttack (params st);
       wingType := wingType (params st) |}.

(** ** Everything that changes the simulation state

    The frames, the auto-mission interval and every button and input that
    writes a cell of [Sim]; the zoom slider, the sound button and the
    analysis button write none of them. *)

Inductive Event : Type :=
| Frame (time : Q)
| MissionTick
| Press (m : Mode)
| PressPause
| PressReset
| PressProfile (wp : WingProfile)
| InputVelocity (v : Q)
| InputAngleOfAttack (a : Q)
| InputHeadWind (w : Q)
| InputWeight (w : Q)
| InputWingSpan (x : Q)
| InputChordLength (x : Q).

Definition step (e : Event) (st : Sim) : Sim :=
  match e with
  | Frame time => loop time st
  | MissionTick => autoMissionTick st
  | Press m => toggle m st
  | PressPause => togglePause st
  | PressReset => resetStats st
  | PressProfile wp => clickWingProfile wp st
  | InputVelocity v => inputVelocity v st
  | InputAngleOfAttack a => inputAngleOfAttack a st
  | InputHeadWind w => inputHeadWind w st
  | InputWeight w => inputWeight w st
  | InputWingSpan x => inputWingSpan x st
  | InputChordLength x => inputChordLength x st
  end.

Fixpoint run (es : list Event) (st : Sim) : Sim :=
  match es with
  | [] => st
  | e :: es' => run es' (step e st)
  end.

(** While autoland is on, auto-mission and altitude hold are off. *)
Definition landing_exclusive (st : Sim) : bool :=
  negb (isLanding st) || (negb (autoThrottle st) && negb (isAltHold st)).

Definition is_mission_tick (e : Event) : bool :=
  match e with MissionTick => true | _ => false end.

(** ** Ranges of the cockpit sliders (lines 418 and 443) *)

Definition in_slider_ranges (p : FlightParams) : Prop :=
  0 <= velocity p /\ velocity p <= MAX_VELOCITY
  /\ -5 <= angleOfAttack p /\ angleOfAttack p <= 25.

(** * Properties *)

(** ** Comparisons and clamps *)

Lemma js_lt_iff (x y : Q) : js_lt x y = true <-> x < y.
Proof.
  unfold js_lt. rewrite negb_true_iff, <- not_true_iff_false, Qle_bool_iff.
  split; intro H; [apply Qnot_le_lt | apply Qlt_not_le]; exact H.
Qed.

Lemma js_gt_iff (x y : Q) : js_gt x y = true <-> y < x.
Proof. unfold js_gt. apply js_lt_iff. Qed.

Lemma js_le_iff (x y : Q) : js_le x y = true <-> x <= y.
Proof. unfold js_le. apply Qle_bool_iff. Qed.

Lemma js_ge_iff (x y : Q) : js_ge x y = true <-> y <= x.
Proof. unfold js_ge. apply Qle_bool_iff. Qed.

Lemma js_eq_iff (x y : Q) : js_eq x y = true <-> x == y.
Proof. unfold js_eq. apply Qeq_bool_iff. Qed.

Lemma js_lt_false_iff (x y : Q) : js_lt x y = false <-> y <= x.
Proof.
  rewrite <- not_true_iff_false, js_lt_iff.
  split; intro H; [apply Qnot_lt_le | apply Qle_not_lt]; exact H.
Qed.

Lemma js_gt_false_iff (x y : Q) : js_gt x y = false <-> x <= y.
Proof. unfold js_gt. apply js_lt_false_iff. Qed.

Lemma js_le_false_iff (x y : Q) : js_le x y = false <-> y < x.
Proof.
  rewrite <- not_true_iff_false, js_le_iff.
  split; intro H; [apply Qnot_le_lt | apply Qlt_not_le]; exact H.
Qed.

Lemma js_eq_false_iff (x y : Q) : js_eq x y = false <-> ~ x == y.
Proof. rewrite <- not_true_iff_false, js_eq_iff. reflexivity. Qed.

(** Turn every boolean comparison among the hypotheses into its order
    statement. *)
Ltac js_reflect :=
  repeat match goal with
    | H : js_lt _ _ = true |- _ => apply js_lt_iff in H
    | H : js_gt _ _ = true |- _ => apply js_gt_iff in H
    | H : js_le _ _ = true |- _ => apply js_le_iff in H
    | H : js_ge _ _ = true |- _ => apply js_ge_iff in H
    | H : js_eq _ _ = true |- _ => apply js_eq_iff in H
    | H : js_lt _ _ = false |- _ => apply js_lt_false_iff in H
    | H : js_gt _ _ = false |- _ => apply js_gt_false_iff in H
    | H : js_le _ _ = false |- _ => apply js_le_false_iff in H
    | H : js_ge _ _ = false |- _ => apply js_le_false_iff in H
    | H : js_eq _ _ = false |- _ => apply js_eq_false_iff in H
    end.

Lemma Math_max_cases (x y : Q) :
  (x < y /\ Math_max x y == y) \/ (y <= x /\ Math_max x y == x).
Proof. unfold Math_max. apply Q.max_spec. Qed.

Lemma Math_min_cases (x y : Q) :
  (x < y /\ Math_min x y == x) \/ (y <= x /\ Math_min x y == y).
Proof. unfold Math_min. apply Q.min_spec. Qed.

Lemma Math_pow_2 (x : Q) : Math_pow x 2 == x * x.
Proof. unfold Math_pow. ring. Qed.

Lemma Math_PI_pos : 0 < Math_PI.
Proof. reflexivity. Qed.

#[export] Instance Math_round_compat : Proper (Qeq ==> eq) Math_round.
Proof.
  intros x y Hxy. unfold Math_round. apply Qfloor_comp. rewrite Hxy.
  reflexivity.
Qed.

(** ** The model on the default aircraft

    The worked example of the specification (section 8): at 75 m/s the
    default aircraft does not fly, at 220 m/s it does; its lift coefficient
    at 4 degrees is 0.8886 to four places. *)
Example default_aircraft_lift :
  Qfloor (10000 * cl initialParams) = 8886%Z
  /\ isFlying (results (set_velocity initialParams 75) 0) = false
  /\ isFlying (results (set_velocity initialParams 220) 0) = true.
Proof. vm_compute. repeat split; reflexivity. Qed.

(** ** Mode toggles *)

(** One press: if it switches mode [m] on, the other two are off. *)
Lemma toggle_activation_exclusive (m : Mode) (st : Sim) :
  activates m st = true -> others_inactive m (toggle m st) = true.
Proof.
  unfold activates, others_inactive.
  destruct m; cbn [toggle active forallb Mode_eqb orb andb].
  - unfold toggleAutoV; cbn.
    destruct (autoThrottle st), (isAltHold st), (isLanding st);
      cbn; congruence.
  - unfold toggleAltHold.
    destruct (isLanding st) eqn:El, (autoThrottle st) eqn:Ea,
      (isAltHold st) eqn:Eh; cbn; rewrite ?El, ?Ea, ?Eh; cbn; congruence.
  - unfold toggleLanding.
    destruct (negb (isFlying (results (params st) (altitude st)))
              && js_le (altitude st) 0);
      destruct (isLanding st) eqn:El, (autoThrottle st) eqn:Ea,
        (isAltHold st) eqn:Eh; cbn; rewrite ?El, ?Ea, ?Eh; cbn; congruence.
Qed.

(** The toggles keep "at most one mode" once it holds. *)
Lemma toggle_preserves_at_most_one (m : Mode) (st : Sim) :
  at_most_one_mode st = true -> at_most_one_mode (toggle m st) = true.
Proof.
  unfold at_most_one_mode.
  destruct m; cbn [toggle].
  - unfold toggleAutoV; cbn.
    destruct (autoThrottle st), (isAltHold st), (isLanding st);
      cbn; congruence.
  - unfold toggleAltHold.
    destruct (isLanding st) eqn:El, (autoThrottle st) eqn:Ea,
      (isAltHold st) eqn:Eh; cbn; rewrite ?El, ?Ea, ?Eh; cbn; congruence.
  - unfold toggleLanding.
    destruct (negb (isFlying (results (params st) (altitude st)))
              && js_le (altitude st) 0);
      destruct (isLanding st) eqn:El, (autoThrottle st) eqn:Ea,
        (isAltHold st) eqn:Eh; cbn; rewrite ?El, ?Ea, ?Eh; cbn; congruence.
Qed.

(** C1.  Mode-toggle mutual exclusion.  From every state, after every run
    [ms] of earlier mode toggles (the empty run, a single toggle, hence every
    ordered pair of toggles), a toggle that switches mode [m] on leaves [m]
    on and the other two modes off in the state right after it.  The
    invariant is one of the toggle transition only: see
    [mission_cruise_sets_two_flags]. *)
Theorem mode_toggle_mutual_exclusion (ms : list Mode) (m : Mode) (st : Sim) :
  activates m (toggles ms st) = true ->
  active m (toggle m (toggles ms st)) = true
  /\ others_inactive m (toggle m (toggles ms st)) = true.
Proof.
  intro Hact. split.
  - unfold activates in Hact. apply andb_true_iff in Hact. apply Hact.
  - apply toggle_activation_exclusive. exact Hact.
Qed.

(** Airborne, auto-mission then autoland: autoland is switched on and
    auto-mission and altitude hold are off. *)
Lemma mode_toggle_mutual_exclusion_witness :
  activates Autoland (toggles [AutoMission] cruisingSim) = true
  /\ active Autoland (toggle Autoland (toggles [AutoMission] cruisingSim))
     = true
  /\ others_inactive Autoland
       (toggle Autoland (toggles [AutoMission] cruisingSim)) = true.
Proof.
  split; [vm_compute; reflexivity|].
  apply (mode_toggle_mutual_exclusion [AutoMission] Autoland cruisingSim).
  vm_compute; reflexivity.
Defined.

(** All six ordered pairs of distinct toggles, pressed while airborne with
    no mode on: at most one flag is set afterwards. *)
Example ordered_pairs_exclusive :
  forallb (fun '(m1, m2) => at_most_one_mode (toggles [m1; m2] cruisingSim))
    [(AutoMission, AltitudeHold); (AutoMission, Autoland);
     (AltitudeHold, AutoMission); (AltitudeHold, Autoland);
     (Autoland, AutoMission); (Autoland, AltitudeHold)] = true.
Proof. vm_compute. reflexivity. Qed.

(** Between toggles the flags are not kept exclusive: the cruise phase of
    auto-mission switches altitude hold on next to auto-mission. *)
Example mission_cruise_sets_two_flags :
  let st := autoMissionTick (missionSim 9950 190 false) in
  autoThrottle st = true /\ isAltHold st = true.
Proof. vm_compute. split; reflexivity. Qed.

(** ** Altitude integration *)

Lemma updateAltitude_clamp (climbRate dt : Q) (auto : bool) (prev : Q) :
  updateAltitude climbRate dt auto prev ==
  if auto then Math_min 10000 (Math_max 0 (prev + climbRate * dt))
  else Math_max 0 (prev + climbRate * dt).
Proof.
  unfold updateAltitude.
  set (next := prev + climbRate * dt).
  destruct (js_le next 0) eqn:E0; js_reflect.
  - destruct (Math_max_cases 0 next) as [[H1 H2] | [H1 H2]];
      destruct auto; try rewrite H2;
      try (destruct (Math_min_cases 10000 0) as [[H3 H4] | [H3 H4]];
           rewrite H4); lra.
  - destruct (Math_max_cases 0 next) as [[H1 H2] | [H1 H2]]; [|lra].
    destruct (js_ge next 10000) eqn:E1; js_reflect; destruct auto;
      cbn [andb]; rewrite ?H2;
      try (destruct (Math_min_cases 10000 next) as [[H3 H4] | [H3 H4]];
           rewrite H4); lra.
Qed.

Lemma updateAltitude_nonneg (climbRate dt : Q) (auto : bool) (prev : Q) :
  0 <= updateAltitude climbRate dt auto prev.
Proof.
  unfold updateAltitude.
  destruct (js_le (prev + climbRate * dt) 0) eqn:E0; js_reflect; [lra|].
  destruct (js_ge (prev + climbRate * dt) 10000 && auto); lra.
Qed.

(** C4.  Altitude non-negativity.  For every elapsed time [dt], every climb
    rate and every starting altitude (in particular [dt >= 0] and
    [prev >= 0]) the altitude after the integration step is [>= 0]; the
    step is [max(0, prev + climbRate * dt)], clamped to at most 10000 when
    auto-mission is on; and the altitude after a whole frame of [loop] is
    [>= 0], paused or not, provided it was before. *)
Theorem altitude_never_negative :
  (forall climbRate dt prev (auto : bool),
      0 <= updateAltitude climbRate dt auto prev
      /\ updateAltitude climbRate dt false prev
         == Math_max 0 (prev + climbRate * dt)
      /\ updateAltitude climbRate dt true prev
         == Math_min 10000 (Math_max 0 (prev + climbRate * dt)))
  /\ (forall time st, 0 <= altitude st -> 0 <= altitude (loop time st)).
Proof.
  split.
  - intros climbRate dt prev auto. split; [apply updateAltitude_nonneg|].
    split.
    + apply (updateAltitude_clamp climbRate dt false prev).
    + apply (updateAltitude_clamp climbRate dt true prev).
  - intros time st Hst. unfold loop.
    destruct (negb (isPaused st)); [|exact Hst].
    destruct (landingBranch st (altHoldBranch st (params st)))
      as [[p l] s].
    cbn [altitude]. apply updateAltitude_nonneg.
Qed.

Lemma altitude_never_negative_witness :
  0 <= altitude cruisingSim /\ 0 <= altitude (loop 16 cruisingSim).
Proof.
  split; [vm_compute; discriminate|].
  apply (proj2 altitude_never_negative 16 cruisingSim).
  vm_compute; discriminate.
Defined.

(** ** Reset *)

(** C9 (as amended).  From every state, [resetStats] gives distance,
    flight time and altitude 0, velocity 0, angle of attack 4, all three
    mode flags cleared, and leaves weight, wing span, chord length, head
    wind, air density and wing type as they were. *)
Theorem reset_zeroes_session_keeps_airframe (st : Sim) :
  let st' := resetStats st in
  distance st' = 0 /\ flightTime st' = 0 /\ altitude st' = 0
  /\ velocity (params st') = 0 /\ angleOfAttack (params st') = 4
  /\ autoThrottle st' = false /\ isAltHold st' = false
  /\ isLanding st' = false
  /\ same_airframe (params st) (params st').
Proof.
  cbn. unfold same_airframe. cbn. repeat split; reflexivity.
Qed.

(** C9, as the specification states it, fails: after the "F-35" profile
    has been selected, reset keeps the F-35's wing type, weight, span and
    chord instead of the default "airbus" preset. *)
Lemma reset_does_not_restore_preset :
  let st := resetStats (selectWingProfile stealth 29900 10.7 5.5 initialSim) in
  wingType (params st) <> wingType initialParams
  /\ ~ weight (params st) == weight initialParams
  /\ ~ wingSpan (params st) == wingSpan initialParams
  /\ ~ chordLength (params st) == chordLength initialParams.
Proof.
  cbn. repeat split; try discriminate; intro H; vm_compute in H; discriminate.
Qed.

(** ** Frame conditions of the autopilot ticks *)

Lemma set_angleOfAttack_airframe (p : FlightParams) (a : Q) :
  same_airframe p (set_angleOfAttack p a).
Proof. unfold same_airframe; cbn; repeat split; reflexivity. Qed.

Lemma set_velocity_angleOfAttack_airframe (p : FlightParams) (v a : Q) :
  same_airframe p (set_velocity_angleOfAttack p v a).
Proof. unfold same_airframe; cbn; repeat split; reflexivity. Qed.

Lemma same_airframe_refl (p : FlightParams) : same_airframe p p.
Proof. unfold same_airframe; repeat split; reflexivity. Qed.

Lemma same_airframe_trans (p q r : FlightParams) :
  same_airframe p q -> same_airframe q r -> same_airframe p r.
Proof.
  unfold same_airframe.
  intros (H1 & H2 & H3 & H4 & H5 & H6) (K1 & K2 & K3 & K4 & K5 & K6).
  repeat split; congruence.
Qed.

Lemma altHoldBranch_frame (st : Sim) (prev : FlightParams) :
  same_airframe prev (altHoldBranch st prev)
  /\ velocity (altHoldBranch st prev) = velocity prev.
Proof.
  unfold altHoldBranch.
  destruct (isAltHold st && negb (isLanding st)
            && isFlying (results (params st) (altitude st)));
    [destruct (js_gt (totalAirspeed (params st)) 10)|];
    split; try reflexivity; try apply same_airframe_refl.
  unfold altHoldUpdater. apply set_angleOfAttack_airframe.
Qed.

Lemma landingUpdater_frame (alt : Q) (r : SimulationResults) (w d : Q)
    (prev : FlightParams) :
  same_airframe prev (fst (fst (landingUpdater alt r w d prev))).
Proof.
  unfold landingUpdater.
  repeat match goal with
         | |- context [if ?b then _ else _] => destruct b
         end; cbn [fst]; apply set_velocity_angleOfAttack_airframe.
Qed.

Lemma landingBranch_frame (st : Sim) (prev : FlightParams) :
  same_airframe prev (fst (fst (landingBranch st prev)))
  /\ (isLanding st = false -> fst (fst (landingBranch st prev)) = prev).
Proof.
  unfold landingBranch. destruct (isLanding st).
  - split; [apply landingUpdater_frame | discriminate].
  - split; [apply same_airframe_refl | reflexivity].
Qed.

Lemma loop_params (time : Q) (st : Sim) :
  params (loop time st) =
  if negb (isPaused st)
  then fst (fst (landingBranch st (altHoldBranch st (params st))))
  else params st.
Proof.
  unfold loop. destruct (negb (isPaused st)); [|reflexivity].
  destruct (landingBranch st (altHoldBranch st (params st))) as [[p l] s].
  reflexivity.
Qed.

Lemma autoMissionUpdater_frame (alt : Q) (r : SimulationResults)
    (p : FlightParams) :
  same_airframe p (fst (autoMissionUpdater alt r p)).
Proof.
  unfold autoMissionUpdater.
  destruct (js_lt alt 50); [|destruct (js_lt alt (10000 - 100))];
    cbn [fst]; apply set_velocity_angleOfAttack_airframe.
Qed.

Lemma autoMissionTick_params (st : Sim) :
  params (autoMissionTick st) =
  if autoThrottle st && negb (isPaused st) && negb (isLanding st)
  then fst (autoMissionUpdater (altitude st)
              (results (params st) (altitude st)) (params st))
  else params st.
Proof.
  unfold autoMissionTick.
  destruct (autoThrottle st && negb (isPaused st) && negb (isLanding st));
    [|reflexivity].
  destruct (autoMissionUpdater _ _ _) as [p h]. reflexivity.
Qed.

(** C10.  Autopilot frame condition.  A frame of [loop] (altitude hold or
    autoland) and a tick of the auto-mission interval leave weight, wing
    span, chord length, head wind, air density and wing type unchanged;
    a frame without autoland (so at most the altitude-hold update) also
    leaves velocity unchanged, i.e. changes [angleOfAttack] only. *)
Theorem autopilot_frame_condition (time : Q) (st : Sim) :
  same_airframe (params st) (params (loop time st))
  /\ (isLanding st = false ->
      velocity (params (loop time st)) = velocity (params st))
  /\ same_airframe (params st) (params (autoMissionTick st)).
Proof.
  rewrite loop_params, autoMissionTick_params.
  destruct (altHoldBranch_frame st (params st)) as [Ha Hv].
  destruct (landingBranch_frame st (altHoldBranch st (params st)))
    as [Hl Hn].
  split; [|split].
  - destruct (negb (isPaused st)); [|apply same_airframe_refl].
    eapply same_airframe_trans; eassumption.
  - intro Hoff. destruct (negb (isPaused st)); [|reflexivity].
    rewrite (Hn Hoff). exact Hv.
  - destruct (autoThrottle st && negb (isPaused st) && negb (isLanding st));
      [apply autoMissionUpdater_frame | apply same_airframe_refl].
Qed.

Lemma autopilot_frame_condition_witness :
  isLanding cessnaHoldSim = false
  /\ velocity (params (loop 16 cessnaHoldSim))
     = velocity (params cessnaHoldSim)
  /\ ~ angleOfAttack (params (loop 16 cessnaHoldSim))
       == angleOfAttack (params cessnaHoldSim).
Proof.
  split; [reflexivity|]. split.
  - apply (autopilot_frame_condition 16 cessnaHoldSim). reflexivity.
  - intro H. vm_compute in H. discriminate.
Defined.

(** ** Auto-mission *)

(** C7.  Auto-mission phase behaviour.  On a tick of the auto-mission
    interval (auto-mission on, not paused, not landing):
    below 50 m the velocity becomes [min(v + 1.5, 650)], the angle of
    attack becomes 12 if the aircraft is flying and is kept otherwise, and
    the altitude-hold flag is kept;
    from 50 m to below 9900 m the velocity grows by 1.0 while it is below
    700 / 3.6 m/s and is kept otherwise, the angle of attack is 12 and
    altitude hold is switched off;
    from 9900 m on the velocity moves a tenth of the way to 700 / 3.6 m/s,
    the angle of attack is kept and altitude hold is switched on. *)
Theorem auto_mission_phases (st : Sim) :
  autoThrottle st = true -> isPaused st = false -> isLanding st = false ->
  let alt := altitude st in
  let v := velocity (params st) in
  let a := angleOfAttack (params st) in
  let flying := isFlying (results (params st) alt) in
  let st' := autoMissionTick st in
  let v' := velocity (params st') in
  let a' := angleOfAttack (params st') in
  let cruise := 700 / 3.6 in
  (alt < 50 ->
   v' == Math_min (v + 1.5) 650
   /\ (flying = true -> a' == 12) /\ (flying = false -> a' == a)
   /\ isAltHold st' = isAltHold st)
  /\ (50 <= alt /\ alt < 9900 ->
      (v < cruise -> v' == v + 1.0) /\ (cruise <= v -> v' == v)
      /\ a' == 12 /\ isAltHold st' = false)
  /\ (9900 <= alt ->
      v' == v + (cruise - v) * 0.1 /\ a' == a /\ isAltHold st' = true).
Proof.
  intros Hauto Hpause Hland. cbv zeta.
  unfold autoMissionTick. rewrite Hauto, Hpause, Hland. cbn [andb negb].
  unfold autoMissionUpdater.
  destruct (js_lt (altitude st) 50) eqn:E50;
    [|destruct (js_lt (altitude st) (10000 - 100)) eqn:E99];
    js_reflect; cbn [params isAltHold set_velocity_angleOfAttack velocity
                       angleOfAttack].
  - split; [|split]; [intros _ | intros [H _]; lra | intro H; lra].
    split; [reflexivity|]. split; [|split]; try reflexivity.
    + intro Hf. rewrite Hf. reflexivity.
    + intro Hf. rewrite Hf. reflexivity.
  - split; [|split]; [intro H; lra | intros _ | intro H; lra].
    split; [|split; [|split]]; try reflexivity.
    + intro Hv. apply js_lt_iff in Hv. rewrite Hv. reflexivity.
    + intro Hv. apply js_lt_false_iff in Hv. rewrite Hv. reflexivity.
  - split; [|split]; [intro H; lra | intros [_ H]; lra | intros _].
    split; [|split]; reflexivity.
Qed.

(** Default aircraft on the runway at 100 m/s (not flying), climbing at
    5000 m and 150 m/s, and at 9950 m and 200 m/s. *)
Lemma auto_mission_phases_witness :
  (velocity (params (autoMissionTick (missionSim 0 100 false))) == 101.5
   /\ angleOfAttack (params (autoMissionTick (missionSim 0 100 false))) == 4)
  /\ (velocity (params (autoMissionTick (missionSim 5000 150 true))) == 151
      /\ isAltHold (autoMissionTick (missionSim 5000 150 true)) = false)
  /\ isAltHold (autoMissionTick (missionSim 9950 200 false)) = true.
Proof.
  split; [|split].
  - destruct (auto_mission_phases (missionSim 0 100 false)
                eq_refl eq_refl eq_refl) as [H _].
    destruct H as (Hv & _ & Ha & _); [reflexivity|].
    split; [rewrite Hv; reflexivity | rewrite Ha; reflexivity].
  - destruct (auto_mission_phases (missionSim 5000 150 true)
                eq_refl eq_refl eq_refl) as (_ & H & _).
    destruct H as (Hv & _ & _ & Hh);
      [split; [vm_compute; discriminate | reflexivity]|].
    split; [rewrite Hv; reflexivity | exact Hh].
  - destruct (auto_mission_phases (missionSim 9950 200 false)
                eq_refl eq_refl eq_refl) as (_ & _ & H).
    destruct H as (_ & _ & Hh); [vm_compute; discriminate | exact Hh].
Defined.

(** ** Autoland: touchdown *)

Lemma landingUpdater_touchdown (alt : Q) (r : SimulationResults) (w d : Q)
    (prev : FlightParams) :
  alt <= 0.5 ->
  let v := velocity prev in
  let regulated :=
    if js_gt v (75 + 2) then v - 0.4
    else if js_lt v (75 - 2) then v + 0.4 else v in
  let braked := Math_max 0 (regulated - 2.5) in
  landingUpdater alt r w d prev =
  (set_velocity_angleOfAttack prev braked 2,
   negb (js_eq braked 0),
   if js_eq braked 0 then EmptyString else "TOUCHDOWN / BRAKING"%string).
Proof.
  intros Halt. cbv zeta. unfold landingUpdater.
  assert (E15 : js_gt alt 15 = false) by (apply js_gt_false_iff; lra).
  assert (E05 : js_gt alt 0.5 = false) by (apply js_gt_false_iff; lra).
  rewrite E15, E05.
  destruct (js_eq _ 0); reflexivity.
Qed.

(** C2.  Autoland touchdown.  On every frame with autoland on and altitude
    at most 0.5 m the angle of attack becomes 2; the velocity is first
    corrected towards 75 m/s by the fixed step 0.4 (down above 77, up below
    73, none in between) and then reduced by exactly 2.5 and floored at 0;
    and in the very frame in which the new velocity is 0 the landing flag
    and the landing status are cleared (they are kept until then).  A
    velocity of at most 2.1 m/s reaches 0 in that frame. *)
Theorem autoland_touchdown (time : Q) (st : Sim) :
  isPaused st = false -> isLanding st = true -> altitude st <= 0.5 ->
  let v := velocity (params st) in
  let st' := loop time st in
  let v' := velocity (params st') in
  angleOfAttack (params st') == 2
  /\ 0 <= v'
  /\ (77 < v -> v' == Math_max 0 (v - 0.4 - 2.5))
  /\ (v < 73 -> v' == Math_max 0 (v + 0.4 - 2.5))
  /\ (73 <= v /\ v <= 77 -> v' == Math_max 0 (v - 2.5))
  /\ (v <= 2.1 -> v' == 0)
  /\ (v' == 0 -> isLanding st' = false /\ landingStatus st' = EmptyString)
  /\ (~ v' == 0 ->
      isLanding st' = true
      /\ landingStatus st' = "TOUCHDOWN / BRAKING"%string).
Proof.
  intros Hpause Hland Halt. cbv zeta.
  unfold loop. rewrite Hpause. cbn [negb].
  assert (Hhold : altHoldBranch st (params st) = params st).
  { unfold altHoldBranch. rewrite Hland.
    rewrite andb_false_r. reflexivity. }
  rewrite Hhold. unfold landingBranch. rewrite Hland.
  rewrite (landingUpdater_touchdown _ _ _ _ _ Halt).
  cbn [params isLanding landingStatus set_velocity_angleOfAttack velocity
         angleOfAttack].
  set (v := velocity (params st)).
  split; [reflexivity|].
  split; [unfold Math_max; apply Q.le_max_l|].
  split; [|split; [|split; [|split; [|split]]]].
  - intro Hv. assert (E : js_gt v (75 + 2) = true)
      by (apply js_gt_iff; lra).
    rewrite E. reflexivity.
  - intro Hv. assert (E : js_gt v (75 + 2) = false)
      by (apply js_gt_false_iff; lra).
    assert (E' : js_lt v (75 - 2) = true) by (apply js_lt_iff; lra).
    rewrite E, E'. reflexivity.
  - intros [Hlo Hhi]. assert (E : js_gt v (75 + 2) = false)
      by (apply js_gt_false_iff; lra).
    assert (E' : js_lt v (75 - 2) = false)
      by (apply js_lt_false_iff; lra).
    rewrite E, E'. reflexivity.
  - intro Hv. assert (E : js_gt v (75 + 2) = false)
      by (apply js_gt_false_iff; lra).
    assert (E' : js_lt v (75 - 2) = true) by (apply js_lt_iff; lra).
    rewrite E, E'.
    destruct (Math_max_cases 0 (v + 0.4 - 2.5)) as [[H1 H2] | [H1 H2]];
      rewrite H2; lra.
  - intro H0. apply js_eq_iff in H0. rewrite H0. split; reflexivity.
  - intro H0. apply js_eq_false_iff in H0. rewrite H0. split; reflexivity.
Qed.

(** Rolling out at 2 m/s on the runway: the frame stops the aircraft and
    ends the landing. *)
Lemma autoland_touchdown_witness :
  velocity (params (loop 16 (rolloutSim 2))) == 0
  /\ isLanding (loop 16 (rolloutSim 2)) = false
  /\ landingStatus (loop 16 (rolloutSim 2)) = EmptyString.
Proof.
  assert (Halt : altitude (rolloutSim 2) <= 0.5)
    by (vm_compute; discriminate).
  destruct (autoland_touchdown 16 (rolloutSim 2) eq_refl eq_refl Halt)
    as (_ & _ & _ & _ & _ & Hstop & Hclear & _).
  assert (H0 : velocity (params (loop 16 (rolloutSim 2))) == 0)
    by (apply Hstop; vm_compute; discriminate).
  split; [exact H0 | apply Hclear; exact H0].
Defined.

(** Every touchdown frame either stops the aircraft or takes at least
    2.1 m/s off its velocity, so braking cannot stall above 0. *)
Lemma touchdown_velocity_progress (time : Q) (st : Sim) :
  isPaused st = false -> isLanding st = true -> altitude st <= 0.5 ->
  velocity (params (loop time st)) == 0
  \/ velocity (params (loop time st)) <= velocity (params st) - 2.1.
Proof.
  intros Hpause Hland Halt.
  rewrite loop_params, Hpause. cbn [negb].
  assert (Hhold : altHoldBranch st (params st) = params st).
  { unfold altHoldBranch. rewrite Hland, andb_false_r. reflexivity. }
  rewrite Hhold. unfold landingBranch. rewrite Hland.
  rewrite (landingUpdater_touchdown _ _ _ _ _ Halt).
  cbn [fst set_velocity_angleOfAttack velocity].
  set (v := velocity (params st)).
  destruct (js_gt v (75 + 2)) eqn:E1;
    [|destruct (js_lt v (75 - 2)) eqn:E2]; js_reflect;
    match goal with
    | |- Math_max 0 ?x == 0 \/ _ =>
        destruct (Math_max_cases 0 x) as [[H1 H2] | [H1 H2]];
        rewrite H2; [right | left]; lra
    end.
Qed.

(** The correction and the brake add up: above 77 m/s the frame takes
    2.9 m/s off, below 73 m/s (while above 2.1) only 2.1 m/s. *)
Example touchdown_net_decrement :
  velocity (params (loop 16 (rolloutSim 80))) == 80 - 2.9
  /\ velocity (params (loop 16 (rolloutSim 60))) == 60 - 2.1
  /\ velocity (params (loop 16 (rolloutSim 75))) == 75 - 2.5.
Proof. vm_compute. repeat split; reflexivity. Qed.

(** ** Lift coefficient beyond the stall angle *)

Lemma baseCl_nonneg (w : WingType) : 0 <= baseCl w.
Proof. destruct w; vm_compute; discriminate. Qed.

Lemma baseCl_table :
  baseCl symmetric == 0 /\ baseCl flat_bottom == 0.55 /\ baseCl thin == 0.15
  /\ baseCl stealth == 0.12 /\ baseCl cambered == 0.45
  /\ baseCl airbus == 0.45.
Proof. repeat split; reflexivity. Qed.

(** Beyond 16 degrees [cl] is the linear law times the stall factor, both
    floored at 0. *)
Lemma cl_stalled (p : FlightParams) :
  16 < angleOfAttack p ->
  cl p =
  Math_max 0
    ((2 * Math_PI * (angleOfAttack p * Math_PI / 180) + baseCl (wingType p))
     * Math_max 0 (1 - (angleOfAttack p - 16) * 0.2)).
Proof.
  intro H. unfold cl. apply js_gt_iff in H. rewrite H. reflexivity.
Qed.

Lemma cl_stalled_value (a b : Q) :
  16 < a -> 0 <= b ->
  let c :=
    Math_max 0 ((2 * Math_PI * (a * Math_PI / 180) + b)
                * Math_max 0 (1 - (a - 16) * 0.2)) in
  (a < 21 ->
   c == (Math_PI * Math_PI / 90 * a + b) * (4.2 - 0.2 * a) /\ 0 < c)
  /\ (21 <= a -> c == 0).
Proof.
  intros Ha Hb. cbv zeta.
  pose proof Math_PI_pos as Hpi.
  set (pi := Math_PI) in *. clearbody pi.
  assert (Hlin : 2 * pi * (a * pi / 180) + b == pi * pi / 90 * a + b)
    by field.
  assert (HK : 0 < pi * pi / 90).
  { apply Qlt_shift_div_l; [reflexivity|].
    assert (0 < pi * pi) by (apply Qmult_lt_0_compat; assumption). lra. }
  set (K := pi * pi / 90) in *. clearbody K.
  set (lin := 2 * pi * (a * pi / 180) + b) in *. clearbody lin.
  set (f := 1 - (a - 16) * 0.2).
  assert (Hf : f == 4.2 - 0.2 * a) by (unfold f; ring).
  clearbody f.
  assert (Hlinpos : 0 < lin) by nra.
  destruct (Math_max_cases 0 f) as [[F1 F2] | [F1 F2]];
    set (m := Math_max 0 f) in *; clearbody m;
    destruct (Math_max_cases 0 (lin * m)) as [[G1 G2] | [G1 G2]];
    set (c := Math_max 0 (lin * m)) in *; clearbody c;
    (split; [intro Hlt; split | intro Hge]); nra.
Qed.

(** C8 (as amended).  Post-stall decay.  For two angles of attack
    [16 < a1 < a2] with [a1 < 21] and the same wing type, the lift
    coefficient at [a2] is strictly below the one at [a1], which is
    positive; and from 21 degrees on the lift coefficient is 0, for the
    baseline 0.45 as for every other. *)
Theorem post_stall_decay (p1 p2 : FlightParams) :
  wingType p1 = wingType p2 ->
  16 < angleOfAttack p1 -> angleOfAttack p1 < angleOfAttack p2 ->
  angleOfAttack p1 < 21 ->
  cl p2 < cl p1 /\ 0 < cl p1 /\ (21 <= angleOfAttack p2 -> cl p2 == 0).
Proof.
  intros Hw H16 Hlt H21.
  assert (H16' : 16 < angleOfAttack p2) by lra.
  rewrite (cl_stalled p1 H16), (cl_stalled p2 H16'), <- Hw.
  pose proof (baseCl_nonneg (wingType p1)) as Hb.
  destruct (cl_stalled_value (angleOfAttack p1) (baseCl (wingType p1))
              H16 Hb) as [V1 _].
  destruct (cl_stalled_value (angleOfAttack p2) (baseCl (wingType p1))
              H16' Hb) as [V2 Z2].
  cbv zeta in V1, V2, Z2.
  destruct (V1 H21) as [E1 P1].
  split; [|split; [exact P1 | exact Z2]].
  destruct (Qlt_le_dec (angleOfAttack p2) 21) as [L2 | L2].
  - destruct (V2 L2) as [E2 _]. rewrite E1, E2.
    pose proof Math_PI_pos as Hpi.
    assert (HK : 0 < Math_PI * Math_PI / 90) by reflexivity.
    set (K := Math_PI * Math_PI / 90) in *. clearbody K.
    set (a1 := angleOfAttack p1) in *. set (a2 := angleOfAttack p2) in *.
    set (b := baseCl (wingType p1)) in *. clearbody a1 a2 b.
    assert (Hdiff :
      (K * a1 + b) * (4.2 - 0.2 * a1) - (K * a2 + b) * (4.2 - 0.2 * a2)
      == (a2 - a1) * (K * (0.2 * (a1 + a2) - 4.2) + 0.2 * b)) by ring.
    assert (Hpos : 0 < (a2 - a1) * (K * (0.2 * (a1 + a2) - 4.2) + 0.2 * b)).
    { apply Qmult_lt_0_compat; [lra|].
      assert (0 < K * (0.2 * (a1 + a2) - 4.2))
        by (apply Qmult_lt_0_compat; lra).
      nra. }
    lra.
  - rewrite (Z2 L2). exact P1.
Qed.

Lemma post_stall_decay_witness :
  cl (set_angleOfAttack initialParams 18)
  < cl (set_angleOfAttack initialParams 17)
  /\ cl (set_angleOfAttack initialParams 25) == 0.
Proof.
  split.
  - apply (post_stall_decay (set_angleOfAttack initialParams 17)
             (set_angleOfAttack initialParams 18));
      [reflexivity | reflexivity | reflexivity | reflexivity].
  - apply (post_stall_decay (set_angleOfAttack initialParams 17)
             (set_angleOfAttack initialParams 25));
      [reflexivity | reflexivity | reflexivity | reflexivity
      | vm_compute; discriminate].
Defined.

(** C8, as the specification states it, fails: 21 and 22 degrees are both
    beyond 16 and the lift coefficient is 0 at both, so it does not
    decrease strictly. *)
Lemma post_stall_not_strict_beyond_21 :
  let p1 := set_angleOfAttack initialParams 21 in
  let p2 := set_angleOfAttack initialParams 22 in
  16 < angleOfAttack p1 /\ angleOfAttack p1 < angleOfAttack p2
  /\ cl p1 == 0 /\ cl p2 == 0 /\ ~ cl p2 < cl p1.
Proof.
  cbv zeta. split; [reflexivity|]. split; [reflexivity|].
  split; [reflexivity|]. split; [reflexivity|].
  intro H. vm_compute in H. discriminate.
Qed.

(** ** Altitude hold *)

(** What the altitude-hold frame computes: 2% of the way to the clamped
    target, the target being taken with the offset 0.45 for the wing type
    [airbus] and 0.2 for every other wing type. *)
Lemma loop_altitude_hold (time : Q) (st : Sim) :
  isPaused st = false -> isAltHold st = true -> isLanding st = false ->
  isFlying (results (params st) (altitude st)) = true ->
  10 < totalAirspeed (params st) ->
  let p := params st in
  let rho := currentAirDensity (altitude st) in
  let offset := if WingType_eqb (wingType p) airbus then 0.45 else 0.2 in
  let target :=
    Math_min 15
      (Math_max (-5)
         (((targetCl p rho - offset) / (2 * Math_PI)) * (180 / Math_PI))) in
  angleOfAttack (params (loop time st))
  = angleOfAttack p + (target - angleOfAttack p) * 0.02.
Proof.
  intros Hpause Hhold Hland Hfly Hspeed. cbv zeta.
  rewrite loop_params, Hpause. cbn [negb].
  destruct (landingBranch_frame st (altHoldBranch st (params st)))
    as [_ Hn].
  rewrite (Hn Hland).
  unfold altHoldBranch. rewrite Hhold, Hland, Hfly. cbn [negb andb].
  apply js_gt_iff in Hspeed. rewrite Hspeed. reflexivity.
Qed.

(** For the wing type [airbus] the frame follows the specified law. *)
Lemma loop_altitude_hold_airbus (time : Q) (st : Sim) :
  isPaused st = false -> isAltHold st = true -> isLanding st = false ->
  isFlying (results (params st) (altitude st)) = true ->
  10 < totalAirspeed (params st) ->
  wingType (params st) = airbus ->
  angleOfAttack (params (loop time st))
  = spec_altHold_angleOfAttack (params st)
      (currentAirDensity (altitude st)).
Proof.
  intros Hpause Hhold Hland Hfly Hspeed Hwing.
  rewrite (loop_altitude_hold time st Hpause Hhold Hland Hfly Hspeed).
  unfold spec_altHold_angleOfAttack, spec_targetAoADeg.
  rewrite Hwing. reflexivity.
Qed.

(** C3.  Altitude-hold control law, evaluated on the "Cessna 172" preset
    (wing type [cambered], baseline 0.45) flying at 60 m/s with altitude
    hold on.  The frame inverts the lift formula with the offset 0.2, not
    with the wing's baseline: its target is about 0.74 degrees where the
    specified law gives about -1.54, and the new angle of attack is not
    the specified one. *)
Theorem altitude_hold_cambered_offset :
  let st := cessnaHoldSim in
  let p := params st in
  let rho := currentAirDensity (altitude st) in
  (isAltHold st = true /\ isLanding st = false
   /\ isFlying (results p (altitude st)) = true /\ 10 < totalAirspeed p)
  /\ Qfloor (1000 * targetAoADeg p rho) = 736%Z
  /\ Qfloor (1000 * spec_targetAoADeg p rho) = (-1544)%Z
  /\ angleOfAttack (params (loop 16 st))
     == angleOfAttack p + (targetAoADeg p rho - angleOfAttack p) * 0.02
  /\ ~ angleOfAttack (params (loop 16 st))
       == spec_altHold_angleOfAttack p rho.
Proof.
  cbv zeta. split; [repeat split; reflexivity|].
  split; [vm_compute; reflexivity|].
  split; [vm_compute; reflexivity|].
  split; [vm_compute; reflexivity|].
  intro H. vm_compute in H. discriminate.
Qed.

(** The same divergence for each wing type but [airbus]. *)
Example altitude_hold_offset_by_wing_type :
  forallb
    (fun w =>
       let st := cessnaHoldSim_with w in
       isFlying (results (params st) (altitude st))
       && negb (Qeq_bool
                  (angleOfAttack (params (loop 16 st)))
                  (spec_altHold_angleOfAttack (params st)
                     (currentAirDensity (altitude st)))))
    [symmetric; cambered; flat_bottom; thin; stealth] = true
  /\ (let st := cessnaHoldSim_with airbus in
      Qeq_bool (angleOfAttack (params (loop 16 st)))
        (spec_altHold_angleOfAttack (params st)
           (currentAirDensity (altitude st))) = true).
Proof. vm_compute. split; reflexivity. Qed.

(** ** Dashboard lift curve *)

Lemma forSpeeds_map {A : Type} (body : Q -> A) (fuel : nat) (v maxV : Q) :
  StatsDashboard.forSpeeds fuel v maxV body
  = map body (StatsDashboard.forSpeeds fuel v maxV (fun x => x)).
Proof.
  revert v. induction fuel as [|fuel IH]; intro v; cbn; [reflexivity|].
  destruct (js_le v maxV); [|reflexivity].
  cbn. rewrite IH. reflexivity.
Qed.

(** The loop stops on its condition, after the 14 speeds 0, 50, ..., 650. *)
Lemma sampledSpeeds_eq :
  StatsDashboard.sampledSpeeds
  = [0; 50; 100; 150; 200; 250; 300; 350; 400; 450; 500; 550; 600; 650].
Proof. vm_compute. reflexivity. Qed.

Lemma forSpeeds_enough_fuel (n : nat) :
  StatsDashboard.forSpeeds (14 + n) 0 650 (fun x => x)
  = StatsDashboard.forSpeeds 14 0 650 (fun x => x).
Proof.
  cbn [Nat.add StatsDashboard.forSpeeds].
  repeat (match goal with
          | |- context [js_le ?a 650] =>
              let b := eval vm_compute in (js_le a 650) in
              change (js_le a 650) with b
          end; cbv iota).
  destruct n; reflexivity.
Qed.

Lemma generateChartData_map (p : FlightParams) :
  StatsDashboard.generateChartData p
  = map (StatsDashboard.chartPoint p) StatsDashboard.sampledSpeeds.
Proof.
  unfold StatsDashboard.generateChartData, StatsDashboard.sampledSpeeds.
  apply forSpeeds_map.
Qed.

(** Below the stall angle a chart point is the model's lift, rounded, as
    soon as the model's air density is the [airDensity] field. *)
Lemma chartPoint_unstalled (p : FlightParams) (alt v : Q) :
  angleOfAttack p <= 16 ->
  currentAirDensity alt == airDensity p ->
  StatsDashboard.chartPoint p v
  = (Math_round (v * 3.6),
     Math_round (liftForce (results (set_velocity p v) alt))).
Proof.
  intros Haoa Hrho.
  unfold StatsDashboard.chartPoint. f_equal.
  apply Math_round_compat.
  unfold results, cl, set_velocity, totalAirspeed.
  cbn [liftForce set_velocity_angleOfAttack velocity headWind wingSpan
         chordLength angleOfAttack wingType].
  apply js_gt_false_iff in Haoa. rewrite Haoa, Hrho. reflexivity.
Qed.

(** C5 (as amended).  Dashboard/model refinement.  For parameters with
    angle of attack at most 16 degrees, and an altitude at which the model's
    air density equals the [airDensity] field, the chart is computed at the
    14 speeds 0, 50, ..., 650 and its lift value at speed [v] is
    [Math.round] of the model's [liftForce] for the same parameters with
    velocity [v]. *)
Theorem dashboard_refines_model (p : FlightParams) (alt : Q) :
  angleOfAttack p <= 16 ->
  currentAirDensity alt == airDensity p ->
  StatsDashboard.generateChartData p
  = map (fun v =>
           (Math_round (v * 3.6),
            Math_round (liftForce (results (set_velocity p v) alt))))
      [0; 50; 100; 150; 200; 250; 300; 350; 400; 450; 500; 550; 600; 650].
Proof.
  intros Haoa Hrho.
  rewrite generateChartData_map, sampledSpeeds_eq.
  apply map_ext. intro v. apply chartPoint_unstalled; assumption.
Qed.

Lemma dashboard_refines_model_witness :
  nth 1 (StatsDashboard.generateChartData initialParams) (0%Z, 0%Z)
  = (180%Z, 1150305%Z)
  /\ Math_round (liftForce (results (set_velocity initialParams 50) 0))
     = 1150305%Z.
Proof.
  assert (H16 : angleOfAttack initialParams <= 16)
    by (vm_compute; discriminate).
  assert (Hrho : currentAirDensity 0 == airDensity initialParams)
    by reflexivity.
  rewrite (dashboard_refines_model initialParams 0 H16 Hrho).
  split; vm_compute; reflexivity.
Defined.

(** C5, as the specification states it, fails.  At 50 m/s with the default
    parameters the chart holds the integer 1150305 and the model's lift is
    not an integer; at 5000 m the model uses a thinner air than the
    [airDensity] field; at 18 degrees the chart's stall factor is
    [1 - 2 * 0.15] and the model's is [1 - 2 * 0.2], and the two lifts
    differ by far more than rounding. *)
Lemma dashboard_differs_from_model :
  let lift_chart p v := snd (StatsDashboard.chartPoint p v) in
  let lift_model p v alt := liftForce (results (set_velocity p v) alt) in
  let stalled := set_angleOfAttack initialParams 18 in
  In 50 StatsDashboard.sampledSpeeds
  /\ ~ inject_Z (lift_chart initialParams 50)
       == lift_model initialParams 50 0
  /\ (lift_chart initialParams 50 = 1150305%Z
      /\ Math_round (lift_model initialParams 50 5000) = 774695%Z)
  /\ (lift_chart stalled 50 = 2196338%Z
      /\ Math_round (lift_model stalled 50 0) = 1882575%Z).
Proof.
  cbv zeta. split; [rewrite sampledSpeeds_eq; cbn; tauto|].
  split; [intro H; vm_compute in H; discriminate|].
  split; split; vm_compute; reflexivity.
Qed.

(** ** Divisors and square-root arguments *)

Lemma safe_div_defined (n d : Q) : ~ d == 0 -> safe_div n d = Some (n / d).
Proof.
  intro H. unfold safe_div. apply js_eq_false_iff in H. rewrite H.
  reflexivity.
Qed.

Lemma safe_div_zero (n d : Q) : d == 0 -> safe_div n d = None.
Proof.
  intro H. unfold safe_div. apply js_eq_iff in H. rewrite H. reflexivity.
Qed.

(** Where the checked quotient exists it is the quotient the ticks use. *)
Lemma targetCl_checked_sound (p : FlightParams) (rho q : Q) :
  targetCl_checked p rho = Some q -> q = targetCl p rho.
Proof.
  unfold targetCl_checked, targetCl, safe_div.
  destruct (js_eq _ 0); [discriminate|]. intro H. injection H as <-.
  reflexivity.
Qed.

Lemma climbRate_checked_sound (p : FlightParams) (r : SimulationResults)
    (q : Q) :
  climbRate_checked p r = Some q -> q = climbRate p r.
Proof.
  unfold climbRate_checked, climbRate, safe_div.
  destruct (js_eq _ 0); [discriminate|]. intro H. injection H as <-.
  reflexivity.
Qed.

Lemma currentAirDensity_floor (alt : Q) : 0.35 <= currentAirDensity alt.
Proof. unfold currentAirDensity, Math_max. apply Q.le_max_l. Qed.

Lemma massDamping_floor (p : FlightParams) : 10000 <= massDamping p.
Proof. unfold massDamping, Math_max. apply Q.le_max_l. Qed.

Lemma cl_nonneg (p : FlightParams) : 0 <= cl p.
Proof. unfold cl, Math_max. apply Q.le_max_l. Qed.

Lemma requiredTakeoffSpeed_divisor_pos (p : FlightParams) (alt : Q) :
  0 < wingSpan p -> 0 < chordLength p ->
  0 < currentAirDensity alt * (wingSpan p * chordLength p)
      * Math_max 0.1 (cl p).
Proof.
  intros Hs Hc.
  pose proof (currentAirDensity_floor alt) as Hrho.
  assert (Hm : 0.1 <= Math_max 0.1 (cl p))
    by (unfold Math_max; apply Q.le_max_l).
  repeat apply Qmult_lt_0_compat; lra.
Qed.

Lemma targetCl_divisor_pos (p : FlightParams) (alt : Q) :
  0 < wingSpan p -> 0 < chordLength p -> 10 < totalAirspeed p ->
  0 < 0.5 * currentAirDensity alt * Math_pow (totalAirspeed p) 2
      * (wingSpan p * chordLength p).
Proof.
  intros Hs Hc Hv.
  pose proof (currentAirDensity_floor alt) as Hrho.
  rewrite Math_pow_2.
  repeat apply Qmult_lt_0_compat; lra.
Qed.

(** C6 (as amended).  Guarded divisions.  For every altitude and every
    parameters with positive weight, wing span and chord length: the
    divisor of [requiredTakeoffSpeed] is not 0 and the argument of its square
    root is not negative, so the take-off speed is computed; the divisor of
    the altitude-hold [targetCl] is not 0 on the frames that compute it
    (total airspeed above 10); the divisor of the dashboard's load factor is
    not 0; and the divisor of [climbRate] is at least 10000, with no
    condition on the parameters. *)
Theorem divisions_guarded_for_positive_airframe
    (p : FlightParams) (alt : Q) (r : SimulationResults) :
  0 < weight p -> 0 < wingSpan p -> 0 < chordLength p ->
  (exists q,
      requiredTakeoffSpeed_radicand p alt = Some q /\ 0 <= q
      /\ forall Math_sqrt,
          requiredTakeoffSpeed Math_sqrt p alt
          = Some (Math_sqrt q - headWind p))
  /\ (10 < totalAirspeed p ->
      targetCl_checked p (currentAirDensity alt)
      = Some (targetCl p (currentAirDensity alt)))
  /\ loadFactor_checked r p = Some (liftForce r / (weight p * 9.81))
  /\ (climbRate_checked p r = Some (climbRate p r)
      /\ 10000 <= massDamping p).
Proof.
  intros Hw Hs Hc.
  pose proof (requiredTakeoffSpeed_divisor_pos p alt Hs Hc) as Hd.
  split; [|split; [|split]].
  - exists (2 * weightForce p
            / (currentAirDensity alt * (wingSpan p * chordLength p)
               * Math_max 0.1 (cl p))).
    assert (Hrad : requiredTakeoffSpeed_radicand p alt
                   = Some (2 * weightForce p
                           / (currentAirDensity alt
                              * (wingSpan p * chordLength p)
                              * Math_max 0.1 (cl p)))).
    { unfold requiredTakeoffSpeed_radicand. apply safe_div_defined. lra. }
    assert (Hq : 0 <= 2 * weightForce p
                      / (currentAirDensity alt
                         * (wingSpan p * chordLength p)
                         * Math_max 0.1 (cl p))).
    { apply Qle_shift_div_l; [exact Hd|].
      unfold weightForce, GRAVITY. lra. }
    split; [exact Hrad|]. split; [exact Hq|].
    intro Math_sqrt. unfold requiredTakeoffSpeed, safe_sqrt.
    rewrite Hrad. apply js_le_iff in Hq. rewrite Hq. reflexivity.
  - intro Hv. unfold targetCl_checked, targetCl. apply safe_div_defined.
    pose proof (targetCl_divisor_pos p alt Hs Hc Hv). lra.
  - unfold loadFactor_checked. apply safe_div_defined. lra.
  - pose proof (massDamping_floor p) as Hm.
    split; [|exact Hm].
    unfold climbRate_checked, climbRate. apply safe_div_defined. lra.
Qed.

Lemma divisions_guarded_for_positive_airframe_witness :
  (exists q, requiredTakeoffSpeed_radicand initialParams 0 = Some q
             /\ 0 <= q)
  /\ (exists n, loadFactor_checked (results initialParams 0) initialParams
                 = Some n /\ n == 0).
Proof.
  destruct (divisions_guarded_for_positive_airframe initialParams 0
              (results initialParams 0))
    as ((q & Hq & Hpos & _) & _ & Hload & _);
    [reflexivity | reflexivity | reflexivity |].
  split; [exists q; split; assumption|].
  exists (liftForce (results initialParams 0) / (weight initialParams * 9.81)).
  split; [exact Hload | reflexivity].
Defined.

(** C6, as the specification states it, fails on values the number inputs
    accept: with wing span 0 the divisor of [requiredTakeoffSpeed] is 0,
    and with weight 0 the divisor of the load factor is 0. *)
Lemma zero_airframe_divides_by_zero :
  let noSpan :=
    {| weight := 575000; wingSpan := 0; chordLength := 10.6; velocity := 0;
       headWind := 0; airDensity := SEA_LEVEL_AIR_DENSITY;
       angleOfAttack := 4; wingType := airbus |} in
  let noWeight :=
    {| weight := 0; wingSpan := 79.75; chordLength := 10.6; velocity := 0;
       headWind := 0; airDensity := SEA_LEVEL_AIR_DENSITY;
       angleOfAttack := 4; wingType := airbus |} in
  requiredTakeoffSpeed_radicand noSpan 0 = None
  /\ (forall Math_sqrt, requiredTakeoffSpeed Math_sqrt noSpan 0 = None)
  /\ loadFactor_checked (results noWeight 0) noWeight = None.
Proof.
  cbv zeta. split; [vm_compute; reflexivity|].
  split; [intro Math_sqrt; vm_compute; reflexivity | vm_compute; reflexivity].
Qed.

(** * Further properties of the aerodynamic model *)

Lemma cl_unstalled (p : FlightParams) :
  angleOfAttack p <= 16 ->
  cl p
  = Math_max 0
      (2 * Math_PI * (angleOfAttack p * Math_PI / 180) + baseCl (wingType p)).
Proof.
  intro H. unfold cl. apply js_gt_false_iff in H. rewrite H. reflexivity.
Qed.

(** The linear law [2 PI (a PI / 180) + b] is [K a + b] for a positive
    slope [K]. *)
Lemma linear_law_slope :
  exists K, 0 < K
            /\ forall a b, 2 * Math_PI * (a * Math_PI / 180) + b == K * a + b.
Proof.
  exists (Math_PI * Math_PI / 90). split; [reflexivity|].
  intros a b. field.
Qed.

Lemma cl_order_below_stall (p1 p2 : FlightParams) :
  wingType p1 = wingType p2 ->
  angleOfAttack p1 <= angleOfAttack p2 -> angleOfAttack p2 <= 16 ->
  cl p1 <= cl p2.
Proof.
  intros Hw Hle H16.
  assert (H16' : angleOfAttack p1 <= 16) by lra.
  rewrite (cl_unstalled p1 H16'), (cl_unstalled p2 H16), <- Hw.
  destruct linear_law_slope as (K & HK & Hlin).
  rewrite (Hlin (angleOfAttack p1)), (Hlin (angleOfAttack p2)).
  assert (Hl : K * angleOfAttack p1 + baseCl (wingType p1)
               <= K * angleOfAttack p2 + baseCl (wingType p1)) by nra.
  unfold Math_max. apply Q.max_le_compat_l. exact Hl.
Qed.

(** X1.  Below the stall angle the lift coefficient does not decrease with the
    angle of attack, and it increases strictly where it is positive. *)
Theorem cl_monotone_below_stall (p1 p2 : FlightParams) :
  wingType p1 = wingType p2 ->
  angleOfAttack p1 <= angleOfAttack p2 -> angleOfAttack p2 <= 16 ->
  cl p1 <= cl p2
  /\ (angleOfAttack p1 < angleOfAttack p2 -> 0 < cl p1 -> cl p1 < cl p2).
Proof.
  intros Hw Hle H16.
  assert (H16' : angleOfAttack p1 <= 16) by lra.
  rewrite (cl_unstalled p1 H16'), (cl_unstalled p2 H16), <- Hw.
  destruct linear_law_slope as (K & HK & Hlin).
  pose proof (Hlin (angleOfAttack p1) (baseCl (wingType p1))) as L1.
  pose proof (Hlin (angleOfAttack p2) (baseCl (wingType p1))) as L2.
  set (l1 := 2 * Math_PI * (angleOfAttack p1 * Math_PI / 180)
             + baseCl (wingType p1)) in *.
  set (l2 := 2 * Math_PI * (angleOfAttack p2 * Math_PI / 180)
             + baseCl (wingType p1)) in *.
  clearbody l1 l2.
  set (a1 := angleOfAttack p1) in *. set (a2 := angleOfAttack p2) in *.
  set (b := baseCl (wingType p1)) in *. clearbody a1 a2 b.
  assert (Hl : l1 <= l2) by nra.
  destruct (Math_max_cases 0 l1) as [[A1 A2] | [A1 A2]];
    destruct (Math_max_cases 0 l2) as [[B1 B2] | [B1 B2]];
    rewrite A2, B2; split; try lra; intros Hlt Hpos; nra.
Qed.

Lemma cl_monotone_below_stall_witness :
  cl (set_angleOfAttack initialParams 4)
  < cl (set_angleOfAttack initialParams 10).
Proof.
  apply (cl_monotone_below_stall (set_angleOfAttack initialParams 4)
           (set_angleOfAttack initialParams 10));
    [reflexivity | vm_compute; discriminate | vm_compute; discriminate
    | reflexivity | reflexivity].
Defined.

(** X2.  Whatever the angle of attack, the lift coefficient is at most the one
    the same wing has at 16 degrees. *)
Theorem cl_peak_at_stall_angle (p : FlightParams) :
  cl p <= cl (set_angleOfAttack p 16).
Proof.
  destruct (Qlt_le_dec 16 (angleOfAttack p)) as [Hst | Hun].
  - assert (H16 : angleOfAttack (set_angleOfAttack p 16) <= 16)
      by (cbn; lra).
    rewrite (cl_stalled p Hst), (cl_unstalled _ H16).
    cbn [set_angleOfAttack angleOfAttack wingType].
    pose proof (baseCl_nonneg (wingType p)) as Hb.
    destruct (cl_stalled_value (angleOfAttack p) (baseCl (wingType p))
                Hst Hb) as [V Z].
    cbv zeta in V, Z.
    destruct linear_law_slope as (K & HK & Hlin).
    pose proof (Hlin 16 (baseCl (wingType p))) as L16.
    set (l16 := 2 * Math_PI * (16 * Math_PI / 180) + baseCl (wingType p))
      in *.
    clearbody l16.
    destruct (Math_max_cases 0 l16) as [[A1 A2] | [A1 A2]]; [|nra].
    rewrite A2.
    destruct (Qlt_le_dec (angleOfAttack p) 21) as [L | L].
    + destruct (V L) as [E _]. rewrite E.
      assert (HK' : 0 < Math_PI * Math_PI / 90) by reflexivity.
      assert (L16' : l16 == Math_PI * Math_PI / 90 * 16
                            + baseCl (wingType p)).
      { rewrite L16. rewrite <- (Hlin 16 (baseCl (wingType p))).
        field. }
      set (K' := Math_PI * Math_PI / 90) in *. clearbody K'.
      set (a := angleOfAttack p) in *. set (b := baseCl (wingType p)) in *.
      clearbody a b.
      assert (Hd : K' * 16 + b - (K' * a + b) * (4.2 - 0.2 * a)
                   == (a - 16) * (K' * (0.2 * a - 1) + 0.2 * b)) by ring.
      assert (Hp : 0 <= (a - 16) * (K' * (0.2 * a - 1) + 0.2 * b)).
      { apply Qmult_le_0_compat; [lra|].
        assert (0 <= K' * (0.2 * a - 1))
          by (apply Qmult_le_0_compat; lra).
        lra. }
      lra.
    + rewrite (Z L). lra.
  - apply (cl_order_below_stall p (set_angleOfAttack p 16));
      [reflexivity | exact Hun | cbn; lra].
Qed.

(** ** Air density *)

(** X3.  The air density is never below 0.35, does not increase with altitude,
    is at most the sea-level value at and above the ground, and sits on
    its floor from 10937.5 m on. *)
Theorem air_density_profile (a1 a2 : Q) :
  a1 <= a2 ->
  currentAirDensity a2 <= currentAirDensity a1
  /\ 0.35 <= currentAirDensity a2
  /\ (0 <= a1 -> currentAirDensity a1 <= SEA_LEVEL_AIR_DENSITY)
  /\ (10937.5 <= a1 -> currentAirDensity a2 == 0.35).
Proof.
  intro Hle. unfold currentAirDensity, SEA_LEVEL_AIR_DENSITY. cbv zeta.
  destruct (Math_max_cases 0.35 (1.225 - a1 * 0.00008))
    as [[A1 A2] | [A1 A2]];
    destruct (Math_max_cases 0.35 (1.225 - a2 * 0.00008))
      as [[B1 B2] | [B1 B2]];
    rewrite A2, B2; repeat split; intros; lra.
Qed.

Lemma air_density_profile_witness :
  currentAirDensity 5000 <= currentAirDensity 0
  /\ currentAirDensity 12000 == 0.35.
Proof.
  split.
  - apply (air_density_profile 0 5000). vm_compute; discriminate.
  - apply (air_density_profile 11000 12000);
      vm_compute; discriminate.
Defined.

(** ** Forces and pressures *)

Lemma liftForce_nonneg (p : FlightParams) (alt : Q) :
  0 <= wingSpan p * chordLength p -> 0 <= liftForce (results p alt).
Proof.
  intro Hs. unfold results. cbn [liftForce]. rewrite Math_pow_2.
  pose proof (currentAirDensity_floor alt) as Hrho.
  pose proof (cl_nonneg p) as Hcl.
  set (v := totalAirspeed p). clearbody v.
  assert (Hv : 0 <= v * v) by nra.
  apply Qmult_le_0_compat; [|exact Hcl].
  apply Qmult_le_0_compat; [|exact Hs].
  apply Qmult_le_0_compat; [lra | exact Hv].
Qed.

(** X4.  With a wing area that is not negative the lift is never negative
    (there is no downforce, the coefficient being floored at 0), and the
    drag lies between 5% and 15% of the lift. *)
Theorem lift_nonneg_drag_band (p : FlightParams) (alt : Q) :
  0 <= wingSpan p * chordLength p ->
  let r := results p alt in
  0 <= liftForce r
  /\ 0.05 * liftForce r <= dragForce r
  /\ dragForce r <= 0.15 * liftForce r.
Proof.
  intro Hs. cbv zeta.
  pose proof (liftForce_nonneg p alt Hs) as Hl.
  split; [exact Hl|].
  unfold results in *. cbn [liftForce dragForce] in *.
  set (l := 0.5 * currentAirDensity alt * Math_pow (totalAirspeed p) 2
            * (wingSpan p * chordLength p) * cl p) in *.
  clearbody l.
  destruct (js_gt (totalAirspeed p) 250); split; lra.
Qed.

Lemma lift_nonneg_drag_band_witness :
  0 <= liftForce (results (set_angleOfAttack cessnaParams (-5)) 0).
Proof.
  apply (lift_nonneg_drag_band (set_angleOfAttack cessnaParams (-5)) 0).
  vm_compute; discriminate.
Defined.

(** X5.  The displayed pressures: suction on top, overpressure below, and a
    difference of [0.4 rho V^2], whatever the lift. *)
Theorem pressure_signs (p : FlightParams) (alt : Q) :
  let r := results p alt in
  let V := totalAirspeed p in
  pressureTop r <= 0 /\ 0 <= pressureBottom r
  /\ pressureBottom r - pressureTop r
     == 0.4 * currentAirDensity alt * (V * V).
Proof.
  cbv zeta. unfold results. cbn [pressureTop pressureBottom].
  rewrite !Math_pow_2.
  pose proof (currentAirDensity_floor alt) as Hrho.
  set (rho := currentAirDensity alt) in *. clearbody rho.
  set (V := totalAirspeed p). clearbody V.
  assert (HV : 0 <= V * V) by nra.
  assert (Hr : 0 <= rho * (V * V)) by (apply Qmult_le_0_compat; lra).
  split; [|split]; [nra | nra | ring].
Qed.

(** ** Flying *)

Lemma isFlying_iff (p : FlightParams) (alt : Q) :
  isFlying (results p alt) = true
  <-> weightForce p < liftForce (results p alt) /\ 25 < totalAirspeed p.
Proof.
  unfold results. cbn [isFlying liftForce].
  rewrite andb_true_iff, !js_gt_iff. reflexivity.
Qed.

(** X6.  An aircraft that counts as flying (weight not negative) is faster than
    25 m/s through the air, has a positive lift coefficient and a positive
    wing area, and an angle of attack below 21 degrees: a fully stalled
    wing never flies, whatever its speed. *)
Theorem flying_needs_lift (p : FlightParams) (alt : Q) :
  0 <= weight p -> isFlying (results p alt) = true ->
  25 < totalAirspeed p /\ 0 < cl p /\ angleOfAttack p < 21
  /\ ~ wingSpan p * chordLength p == 0.
Proof.
  intros Hw Hfly. apply isFlying_iff in Hfly. destruct Hfly as [Hlift Hv].
  assert (HW : 0 <= weightForce p) by (unfold weightForce, GRAVITY; lra).
  assert (Hpos : 0 < liftForce (results p alt)) by lra.
  unfold results in Hpos. cbn [liftForce] in Hpos.
  pose proof (cl_nonneg p) as Hcl.
  set (k := 0.5 * currentAirDensity alt * Math_pow (totalAirspeed p) 2)
    in *. clearbody k.
  set (s := wingSpan p * chordLength p) in *. clearbody s.
  assert (Hclpos : 0 < cl p).
  { destruct (Qlt_le_dec 0 (cl p)) as [H | H]; [exact H|].
    assert (E : cl p == 0) by lra. rewrite E in Hpos. lra. }
  split; [exact Hv|]. split; [exact Hclpos|]. split.
  - destruct (Qlt_le_dec (angleOfAttack p) 21) as [H | H]; [exact H|].
    exfalso.
    assert (H16 : 16 < angleOfAttack p) by lra.
    pose proof (baseCl_nonneg (wingType p)) as Hb.
    destruct (cl_stalled_value (angleOfAttack p) (baseCl (wingType p))
                H16 Hb) as [_ Z].
    cbv zeta in Z. rewrite (cl_stalled p H16) in Hclpos.
    rewrite (Z H) in Hclpos. lra.
  - intro E. rewrite E in Hpos. lra.
Qed.

Lemma flying_needs_lift_witness :
  25 < totalAirspeed cessnaParams /\ 0 < cl cessnaParams.
Proof.
  destruct (flying_needs_lift cessnaParams 0) as (H1 & H2 & _);
    [vm_compute; discriminate | reflexivity |].
  split; assumption.
Defined.

(** X7.  Where the lift coefficient is at least 0.1 and the wing area is
    positive, the number under the square root of [requiredTakeoffSpeed] is
    the squared airspeed at which lift equals weight: the aircraft flies
    exactly when its squared airspeed exceeds it and the airspeed exceeds
    25 m/s. *)
Theorem takeoff_speed_balances_lift (p : FlightParams) (alt q : Q) :
  0 < wingSpan p -> 0 < chordLength p -> 0.1 <= cl p ->
  requiredTakeoffSpeed_radicand p alt = Some q ->
  0.5 * currentAirDensity alt * q * (wingSpan p * chordLength p) * cl p
  == weightForce p
  /\ (isFlying (results p alt) = true
      <-> q < totalAirspeed p * totalAirspeed p /\ 25 < totalAirspeed p).
Proof.
  intros Hs Hc Hcl Hrad.
  rewrite isFlying_iff. unfold results. cbn [liftForce].
  rewrite Math_pow_2.
  pose proof (requiredTakeoffSpeed_divisor_pos p alt Hs Hc) as Hd.
  unfold requiredTakeoffSpeed_radicand in Hrad.
  rewrite safe_div_defined in Hrad by lra.
  injection Hrad as Hq.
  assert (Hmax : Math_max 0.1 (cl p) == cl p).
  { destruct (Math_max_cases 0.1 (cl p)) as [[A1 A2] | [A1 A2]]; lra. }
  pose proof (currentAirDensity_floor alt) as Hrho.
  assert (Hs' : 0 < wingSpan p * chordLength p)
    by (apply Qmult_lt_0_compat; assumption).
  set (s := wingSpan p * chordLength p) in *. clearbody s.
  set (rho := currentAirDensity alt) in *. clearbody rho.
  assert (Hd' : 0 < rho * s * cl p).
  { repeat apply Qmult_lt_0_compat; lra. }
  assert (Hq' : q * (rho * s * cl p) == 2 * weightForce p).
  { rewrite <- Hq. rewrite Hmax. field. lra. }
  assert (Hbal : 0.5 * rho * q * s * cl p == weightForce p).
  { setoid_replace (0.5 * rho * q * s * cl p)
      with (0.5 * (q * (rho * s * cl p))) by ring.
    rewrite Hq'. ring. }
  split; [exact Hbal|].
  set (V := totalAirspeed p). clearbody V.
  set (c := cl p) in *. clearbody c.
  set (W := weightForce p) in *. clearbody W.
  assert (Hlift : 0.5 * rho * (V * V) * s * c - W
                  == 0.5 * (rho * s * c) * (V * V - q)).
  { rewrite <- Hbal. ring. }
  set (d := rho * s * c) in *. clearbody d.
  split; intros [H1 H2]; (split; [|exact H2]).
  - assert (0 < 0.5 * d * (V * V - q)) by lra.
    destruct (Qlt_le_dec q (V * V)) as [L | L]; [exact L|].
    exfalso.
    assert (0.5 * d * (V * V - q) <= 0) by nra. lra.
  - assert (0 < 0.5 * d * (V * V - q))
      by (apply Qmult_lt_0_compat; lra).
    lra.
Qed.

Lemma takeoff_speed_balances_lift_witness :
  exists q,
    requiredTakeoffSpeed_radicand cessnaParams 0 = Some q
    /\ q < totalAirspeed cessnaParams * totalAirspeed cessnaParams.
Proof.
  eexists. split; [vm_compute; reflexivity|].
  apply (takeoff_speed_balances_lift cessnaParams 0);
    [reflexivity | reflexivity | vm_compute; discriminate
    | vm_compute; reflexivity | reflexivity].
Defined.

(** X8.  The vertical speed of the HUD divides by 10000 where the integrator
    divides by [massDamping]: up to 250000 kg the two agree, above it the
    HUD shows the integrated climb rate multiplied by [weight / 250000]. *)
Theorem hud_vsi_versus_climb_rate (p : FlightParams)
    (r : SimulationResults) :
  (weight p <= 250000 -> currentVSI p r == climbRate p r)
  /\ (250000 < weight p ->
      currentVSI p r == climbRate p r * (weight p / 250000)).
Proof.
  unfold currentVSI, climbRate, massDamping, weightForce. cbv zeta.
  set (net := liftForce r - weight p * GRAVITY). clearbody net.
  assert (E : weight p / 25 == weight p * (1 # 25)) by field.
  destruct (Math_max_cases 10000 (weight p / 25)) as [[A1 A2] | [A1 A2]];
    rewrite A2; split; intro H.
  - exfalso. lra.
  - field. lra.
  - reflexivity.
  - exfalso. lra.
Qed.

Lemma hud_vsi_versus_climb_rate_witness :
  currentVSI initialParams (results initialParams 0)
  == climbRate initialParams (results initialParams 0) * 2.3.
Proof.
  destruct (hud_vsi_versus_climb_rate initialParams
              (results initialParams 0)) as [_ H].
  rewrite H; [reflexivity | reflexivity].
Defined.

(** * Further properties of the frame loop *)

Lemma loop_running (time : Q) (st : Sim) :
  isPaused st = false ->
  let r := results (params st) (altitude st) in
  let dt := frame_dt time st in
  altitude (loop time st)
  = updateAltitude (climbRate (params st) r) dt (autoThrottle st)
      (altitude st)
  /\ distance (loop time st) = distance st + velocity (params st) * dt
  /\ flightTime (loop time st)
     = (if js_gt (velocity (params st)) 0 || isFlying r
        then flightTime st + dt else flightTime st)
  /\ autoThrottle (loop time st) = autoThrottle st
  /\ isPaused (loop time st) = false
  /\ isAltHold (loop time st) = isAltHold st
  /\ isLanding (loop time st)
     = snd (fst (landingBranch st (altHoldBranch st (params st))))
  /\ landingStatus (loop time st)
     = snd (landingBranch st (altHoldBranch st (params st)))
  /\ lastTimeRef (loop time st) = time.
Proof.
  intro Hp. cbv zeta. unfold loop, frame_dt. rewrite Hp. cbn [negb].
  destruct (landingBranch st (altHoldBranch st (params st))) as [[p l] s].
  cbn. repeat split; reflexivity.
Qed.

Lemma loop_paused (time : Q) (st : Sim) :
  isPaused st = true ->
  loop time st
  = {| params := params st; altitude := altitude st;
       distance := distance st; flightTime := flightTime st;
       autoThrottle := autoThrottle st; isPaused := isPaused st;
       isAltHold := isAltHold st; isLanding := isLanding st;
       landingStatus := landingStatus st; lastTimeRef := 0 |}.
Proof. intro Hp. unfold loop. rewrite Hp. reflexivity. Qed.

Lemma frame_dt_nonneg (time : Q) (st : Sim) :
  lastTimeRef st <= time -> 0 <= frame_dt time st.
Proof.
  intro H. unfold frame_dt. cbv zeta.
  apply Qle_shift_div_l; [reflexivity|].
  destruct (js_eq (lastTimeRef st) 0); lra.
Qed.

Lemma frame_dt_first (time : Q) (st : Sim) :
  lastTimeRef st == 0 -> frame_dt time st == 0.
Proof.
  intro H. unfold frame_dt. cbv zeta. apply js_eq_iff in H. rewrite H.
  field.
Qed.

Lemma landingUpdater_landing_flag (alt : Q) (r : SimulationResults)
    (w d : Q) (prev : FlightParams) :
  snd (fst (landingUpdater alt r w d prev)) = false
  <-> alt <= 0.5
      /\ velocity (fst (fst (landingUpdater alt r w d prev))) == 0.
Proof.
  destruct (Qlt_le_dec 0.5 alt) as [Hhi | Hlo].
  - unfold landingUpdater.
    destruct (js_gt alt 15) eqn:E15; [|assert (E05 : js_gt alt 0.5 = true)
      by (apply js_gt_iff; exact Hhi); rewrite E05];
      cbn [fst snd]; (split; [discriminate | intros [H _]; lra]).
  - rewrite (landingUpdater_touchdown alt r w d prev Hlo).
    cbn [fst snd set_velocity_angleOfAttack velocity].
    rewrite negb_false_iff, js_eq_iff. tauto.
Qed.

(** X9.  A frame never switches a mode on or off, except that it may end the
    landing; it keeps "at most one mode"; and with altitude hold and
    autoland both off it changes no flight parameter: the velocity is not
    integrated and the drag does not slow the aircraft down. *)
Theorem loop_keeps_modes_and_idle_params (time : Q) (st : Sim) :
  autoThrottle (loop time st) = autoThrottle st
  /\ isAltHold (loop time st) = isAltHold st
  /\ isPaused (loop time st) = isPaused st
  /\ (isLanding (loop time st) = true -> isLanding st = true)
  /\ (at_most_one_mode st = true -> at_most_one_mode (loop time st) = true)
  /\ (isAltHold st = false -> isLanding st = false ->
      params (loop time st) = params st).
Proof.
  destruct (isPaused st) eqn:Hp.
  - rewrite (loop_paused time st Hp). cbn.
    repeat split; try assumption; try reflexivity; intros; assumption.
  - destruct (loop_running time st Hp)
      as (_ & _ & _ & Ha & Hp' & Hh & Hl & _ & _).
    cbv zeta in *.
    assert (Hland : isLanding (loop time st) = true -> isLanding st = true).
    { rewrite Hl. unfold landingBranch.
      destruct (isLanding st); [reflexivity | cbn; intro H; exact H]. }
    split; [exact Ha|]. split; [exact Hh|]. split; [exact Hp'|].
    split; [exact Hland|]. split.
    + unfold at_most_one_mode. rewrite Ha, Hh.
      destruct (isLanding (loop time st)) eqn:E.
      * rewrite (Hland eq_refl). intro H; exact H.
      * destruct (autoThrottle st), (isAltHold st), (isLanding st);
          intro H; try reflexivity; discriminate.
    + intros Hoff Hloff. rewrite loop_params, Hp. cbn [negb].
      unfold landingBranch, altHoldBranch. rewrite Hoff, Hloff.
      reflexivity.
Qed.

Lemma loop_keeps_modes_and_idle_params_witness :
  params (loop 16 cruisingSim) = params cruisingSim.
Proof.
  apply (loop_keeps_modes_and_idle_params 16 cruisingSim); reflexivity.
Defined.

(** X10.  Pausing and resuming.  A paused frame changes nothing but clears the
    time reference; after RESUME the first frame sees an elapsed time of 0,
    however long the pause: distance and flight time are unchanged, and so
    is an altitude between 0 and 10000. *)
Theorem resume_frame_has_zero_dt (t1 t2 : Q) (st : Sim) :
  isPaused st = true ->
  let st1 := loop t1 st in
  let st2 := loop t2 (togglePause st1) in
  (params st1 = params st /\ altitude st1 = altitude st
   /\ distance st1 = distance st /\ flightTime st1 = flightTime st)
  /\ distance st2 == distance st
  /\ flightTime st2 == flightTime st
  /\ (0 <= altitude st -> altitude st <= 10000 ->
      altitude st2 == altitude st)
  /\ lastTimeRef st2 = t2.
Proof.
  intro Hp. cbv zeta. rewrite (loop_paused t1 st Hp).
  split; [cbn; repeat split; reflexivity|].
  set (st1 := togglePause _).
  assert (Hp1 : isPaused st1 = false) by (cbn; rewrite Hp; reflexivity).
  assert (Hdt : frame_dt t2 st1 == 0)
    by (apply frame_dt_first; cbn; reflexivity).
  destruct (loop_running t2 st1 Hp1)
    as (Halt & Hd & Hf & _ & _ & _ & _ & _ & Ht).
  cbv zeta in *. rewrite Halt, Hd, Hf.
  change (params st1) with (params st) in *.
  change (altitude st1) with (altitude st) in *.
  change (distance st1) with (distance st).
  change (flightTime st1) with (flightTime st).
  change (autoThrottle st1) with (autoThrottle st).
  set (dt := frame_dt t2 st1) in *. clearbody dt.
  split; [rewrite Hdt; ring|]. split.
  - destruct (js_gt (velocity (params st)) 0 || isFlying _);
      [rewrite Hdt; ring | reflexivity].
  - split; [|exact Ht]. intros H0 H1.
    rewrite updateAltitude_clamp.
    set (c := climbRate _ _). clearbody c.
    assert (E : altitude st + c * dt == altitude st)
      by (rewrite Hdt; ring).
    destruct (Math_max_cases 0 (altitude st + c * dt))
      as [[A1 A2] | [A1 A2]];
      destruct (autoThrottle st); rewrite ?A2;
      try (destruct (Math_min_cases 10000 (altitude st + c * dt))
             as [[B1 B2] | [B1 B2]]; rewrite B2);
      try (destruct (Math_min_cases 10000 0) as [[B1 B2] | [B1 B2]];
           rewrite B2);
      lra.
Qed.

Lemma resume_frame_has_zero_dt_witness :
  distance (loop 900000 (togglePause (loop 20 (togglePause cruisingSim))))
  == distance cruisingSim.
Proof.
  apply (resume_frame_has_zero_dt 20 900000 (togglePause cruisingSim)).
  reflexivity.
Defined.

(** X11.  With timestamps that do not run backwards and a velocity that is not
    negative, a frame never decreases the distance or the flight time; the
    flight time stands still while the aircraft is at rest and not flying. *)
Theorem distance_and_time_monotone (time : Q) (st : Sim) :
  lastTimeRef st <= time -> 0 <= velocity (params st) ->
  distance st <= distance (loop time st)
  /\ flightTime st <= flightTime (loop time st)
  /\ (velocity (params st) == 0 ->
      isFlying (results (params st) (altitude st)) = false ->
      flightTime (loop time st) = flightTime st
      /\ distance (loop time st) == distance st).
Proof.
  intros Ht Hv.
  destruct (isPaused st) eqn:Hp.
  - rewrite (loop_paused time st Hp). cbn.
    repeat split; try lra; reflexivity.
  - destruct (loop_running time st Hp) as (_ & Hd & Hf & _).
    cbv zeta in *. rewrite Hd, Hf.
    pose proof (frame_dt_nonneg time st Ht) as Hdt.
    set (dt := frame_dt time st) in *. clearbody dt.
    set (v := velocity (params st)) in *. clearbody v.
    split; [nra|]. split.
    + destruct (js_gt v 0 || isFlying _); lra.
    + intros Hv0 Hfly. rewrite Hfly.
      assert (E : js_gt v 0 = false) by (apply js_gt_false_iff; lra).
      rewrite E. cbn [orb]. split; [reflexivity|].
      rewrite Hv0. ring.
Qed.

Lemma distance_and_time_monotone_witness :
  distance cruisingSim <= distance (loop 16 cruisingSim)
  /\ flightTime cruisingSim <= flightTime (loop 16 cruisingSim).
Proof.
  destruct (distance_and_time_monotone 16 cruisingSim) as (H1 & H2 & _);
    [vm_compute; discriminate | vm_compute; discriminate |].
  split; assumption.
Defined.

Lemma climbRate_sign (p : FlightParams) (r : SimulationResults) :
  (liftForce r <= weightForce p -> climbRate p r <= 0)
  /\ (weightForce p <= liftForce r -> 0 <= climbRate p r).
Proof.
  unfold climbRate. cbv zeta.
  pose proof (massDamping_floor p) as Hm.
  split; intro H.
  - apply Qle_shift_div_r; [lra|]. lra.
  - apply Qle_shift_div_l; [lra|]. lra.
Qed.

(** X12.  The altitude follows the sign of lift minus weight.  On a running
    frame with a timestamp that does not run backwards, from an altitude
    that is not negative: if the lift does not exceed the weight the
    altitude does not grow (an aircraft on the ground stays there); if the
    lift is at least the weight the altitude does not drop, up to the
    ceiling of 10000. *)
Theorem altitude_follows_net_force (time : Q) (st : Sim) :
  isPaused st = false -> lastTimeRef st <= time -> 0 <= altitude st ->
  let r := results (params st) (altitude st) in
  (liftForce r <= weightForce (params st) ->
   altitude (loop time st) <= altitude st
   /\ (altitude st == 0 -> altitude (loop time st) == 0))
  /\ (weightForce (params st) <= liftForce r -> altitude st <= 10000 ->
      altitude st <= altitude (loop time st)).
Proof.
  intros Hp Ht Ha. cbv zeta.
  destruct (loop_running time st Hp) as (Halt & _).
  cbv zeta in Halt. rewrite Halt.
  pose proof (frame_dt_nonneg time st Ht) as Hdt.
  set (dt := frame_dt time st) in *. clearbody dt.
  destruct (climbRate_sign (params st) (results (params st) (altitude st)))
    as [Hneg Hpos].
  set (c := climbRate _ _) in *. clearbody c.
  pose proof (updateAltitude_nonneg c dt (autoThrottle st) (altitude st))
    as Hnn.
  rewrite updateAltitude_clamp in *.
  set (a := altitude st) in *. clearbody a.
  split.
  - intro Hl. specialize (Hneg Hl).
    assert (Hn : a + c * dt <= a) by nra.
    destruct (Math_max_cases 0 (a + c * dt)) as [[A1 A2] | [A1 A2]];
      destruct (autoThrottle st); rewrite ?A2 in *;
      try (destruct (Math_min_cases 10000 (a + c * dt))
             as [[B1 B2] | [B1 B2]]; rewrite B2 in * );
      try (destruct (Math_min_cases 10000 0) as [[B1 B2] | [B1 B2]];
           rewrite B2 in * );
      split; intros; lra.
  - intros Hl Hceil. specialize (Hpos Hl).
    assert (Hn : a <= a + c * dt) by nra.
    destruct (Math_max_cases 0 (a + c * dt)) as [[A1 A2] | [A1 A2]];
      destruct (autoThrottle st); rewrite ?A2 in *;
      try (destruct (Math_min_cases 10000 (a + c * dt))
             as [[B1 B2] | [B1 B2]]; rewrite B2 in * );
      try (destruct (Math_min_cases 10000 0) as [[B1 B2] | [B1 B2]];
           rewrite B2 in * );
      lra.
Qed.

Lemma altitude_follows_net_force_witness :
  altitude cruisingSim <= altitude (loop 16 cruisingSim).
Proof.
  apply (altitude_follows_net_force 16 cruisingSim);
    [reflexivity | vm_compute; discriminate | vm_compute; discriminate
    | vm_compute; discriminate | vm_compute; discriminate].
Defined.

(** * Further properties of autoland *)

Lemma loop_landing_params (time : Q) (st : Sim) :
  isPaused st = false -> isLanding st = true ->
  let out :=
    landingUpdater (altitude st) (results (params st) (altitude st))
      (weightForce (params st)) (massDamping (params st)) (params st) in
  params (loop time st) = fst (fst out)
  /\ isLanding (loop time st) = snd (fst out)
  /\ landingStatus (loop time st) = snd out.
Proof.
  intros Hp Hl. cbv zeta.
  destruct (loop_running time st Hp) as (_ & _ & _ & _ & _ & _ & Hl' & Hs & _).
  rewrite loop_params, Hp, Hl', Hs. cbn [negb].
  assert (Hhold : altHoldBranch st (params st) = params st).
  { unfold altHoldBranch. rewrite Hl, andb_false_r. reflexivity. }
  rewrite Hhold. unfold landingBranch. rewrite Hl.
  repeat split; reflexivity.
Qed.

Lemma clamp_bounds (lo hi x : Q) :
  lo <= hi ->
  lo <= Math_max lo (Math_min hi x) /\ Math_max lo (Math_min hi x) <= hi.
Proof.
  intro H.
  destruct (Math_min_cases hi x) as [[A1 A2] | [A1 A2]];
    destruct (Math_max_cases lo (Math_min hi x)) as [[B1 B2] | [B1 B2]];
    rewrite B2; split; lra.
Qed.

Lemma clamp_inside (lo hi x : Q) :
  lo <= x -> x <= hi -> Math_max lo (Math_min hi x) == x.
Proof.
  intros H1 H2.
  destruct (Math_min_cases hi x) as [[A1 A2] | [A1 A2]];
    destruct (Math_max_cases lo (Math_min hi x)) as [[B1 B2] | [B1 B2]];
    rewrite B2; lra.
Qed.

Lemma landingUpdater_angle (alt : Q) (r : SimulationResults) (w d : Q)
    (prev : FlightParams) :
  exists x,
    angleOfAttack (fst (fst (landingUpdater alt r w d prev)))
    = Math_max (-2) (Math_min 15 x).
Proof.
  unfold landingUpdater.
  repeat match goal with
         | |- context [if ?b then _ else _] => destruct b
         end; cbn [fst set_velocity_angleOfAttack angleOfAttack];
    eexists; reflexivity.
Qed.

(** X13.  Every frame of autoland leaves the angle of attack between -2 and 15
    degrees, in all three phases and whatever it was before. *)
Theorem autoland_angle_clamped (time : Q) (st : Sim) :
  isPaused st = false -> isLanding st = true ->
  -2 <= angleOfAttack (params (loop time st))
  /\ angleOfAttack (params (loop time st)) <= 15.
Proof.
  intros Hp Hl.
  destruct (loop_landing_params time st Hp Hl) as (Hpar & _).
  cbv zeta in Hpar. rewrite Hpar.
  destruct (landingUpdater_angle (altitude st)
              (results (params st) (altitude st))
              (weightForce (params st)) (massDamping (params st))
              (params st)) as [x Hx].
  rewrite Hx. apply clamp_bounds. lra.
Qed.

Lemma autoland_angle_clamped_witness :
  angleOfAttack (params (loop 16 (rolloutSim 80))) <= 15.
Proof.
  apply (autoland_angle_clamped 16 (rolloutSim 80)); reflexivity.
Defined.

(** X14.  Autoland ends in one place only: a running frame with autoland on
    switches it off exactly when the altitude is at most 0.5 m and the
    velocity it leaves is 0. *)
Theorem autoland_ends_only_stopped_on_ground (time : Q) (st : Sim) :
  isPaused st = false -> isLanding st = true ->
  (isLanding (loop time st) = false
   <-> altitude st <= 0.5 /\ velocity (params (loop time st)) == 0).
Proof.
  intros Hp Hl.
  destruct (loop_landing_params time st Hp Hl) as (Hpar & Hland & _).
  cbv zeta in *. rewrite Hpar, Hland.
  apply landingUpdater_landing_flag.
Qed.

Lemma autoland_ends_only_stopped_on_ground_witness :
  isLanding (loop 16 (rolloutSim 80)) = true.
Proof.
  destruct (autoland_ends_only_stopped_on_ground 16 (rolloutSim 80)
              eq_refl eq_refl) as [H _].
  destruct (isLanding (loop 16 (rolloutSim 80))) eqn:E; [reflexivity|].
  destruct (H eq_refl) as [_ Hv]. vm_compute in Hv. discriminate.
Defined.

(** X15.  The glideslope phase (altitude above 15 m).  Autoland stays on with
    the status "GLIDESLOPE INTERCEPT"; the velocity moves 0.4 m/s towards
    75 m/s from outside the band 73..77 and never crosses 75; and from an
    angle of attack within the clamp the angle is not lowered when the
    aircraft sinks faster than the target rate (-6 m/s above 50 m, -2 m/s
    below) and not raised when it sinks more slowly. *)
Theorem autoland_glideslope (time : Q) (st : Sim) :
  isPaused st = false -> isLanding st = true -> 15 < altitude st ->
  let v := velocity (params st) in
  let a := angleOfAttack (params st) in
  let vsi := climbRate (params st) (results (params st) (altitude st)) in
  let target := if js_gt (altitude st) 50 then -6 else -2 in
  let st' := loop time st in
  let v' := velocity (params st') in
  let a' := angleOfAttack (params st') in
  (isLanding st' = true
   /\ landingStatus st' = "GLIDESLOPE INTERCEPT"%string)
  /\ (77 < v -> v' == v - 0.4 /\ 75 < v')
  /\ (v < 73 -> v' == v + 0.4 /\ v' < 75)
  /\ (73 <= v /\ v <= 77 -> v' == v)
  /\ (-2 <= a /\ a <= 15 ->
      (vsi <= target -> a <= a') /\ (target <= vsi -> a' <= a)).
Proof.
  intros Hp Hl Halt. cbv zeta.
  destruct (loop_landing_params time st Hp Hl) as (Hpar & Hland & Hst).
  cbv zeta in *. rewrite Hpar, Hland, Hst.
  unfold landingUpdater, climbRate. cbv zeta.
  apply js_gt_iff in Halt. rewrite Halt.
  cbn [fst snd set_velocity_angleOfAttack velocity angleOfAttack].
  set (v := velocity (params st)).
  set (a := angleOfAttack (params st)).
  set (vsi := (liftForce (results (params st) (altitude st))
               - weightForce (params st)) / massDamping (params st)).
  clearbody vsi.
  set (target := if js_gt (altitude st) 50 then -6 else -2).
  clearbody target.
  split; [split; reflexivity|].
  split; [|split; [|split]].
  - intro Hv. assert (E : js_gt v (75 + 2) = true)
      by (apply js_gt_iff; lra).
    rewrite E. split; [reflexivity | lra].
  - intro Hv. assert (E : js_gt v (75 + 2) = false)
      by (apply js_gt_false_iff; lra).
    assert (E' : js_lt v (75 - 2) = true) by (apply js_lt_iff; lra).
    rewrite E, E'. split; [reflexivity | lra].
  - intros [H1 H2]. assert (E : js_gt v (75 + 2) = false)
      by (apply js_gt_false_iff; lra).
    assert (E' : js_lt v (75 - 2) = false)
      by (apply js_lt_false_iff; lra).
    rewrite E, E'. reflexivity.
  - intros [H1 H2].
    set (x := a + (target - vsi) * 0.08).
    destruct (Math_min_cases 15 x) as [[A1 A2] | [A1 A2]];
      destruct (Math_max_cases (-2) (Math_min 15 x))
        as [[B1 B2] | [B1 B2]];
      rewrite B2; unfold x in *; split; intro; lra.
Qed.

(** The default aircraft on the glideslope at 1000 m. *)
Lemma autoland_glideslope_witness :
  let st := toggle Autoland cruisingSim in
  velocity (params (loop 16 st)) == 220 - 0.4
  /\ isLanding (loop 16 st) = true.
Proof.
  cbv zeta.
  destruct (autoland_glideslope 16 (toggle Autoland cruisingSim))
    as ((Hl & _) & Hv & _);
    [reflexivity | reflexivity | reflexivity |].
  split; [|exact Hl].
  destruct Hv as [Hv _]; [reflexivity|].
  rewrite Hv. reflexivity.
Defined.

(** X16.  The flare phase (altitude above 0.5 m and at most 15 m).  Autoland
    stays on with the status "FLARE / REDUCE THRUST"; from an angle of
    attack within the clamp the distance of the angle to 8.5 degrees shrinks
    by a tenth; above 40 m/s the frame slows the aircraft down, but below
    39 m/s the 0.4 m/s correction outweighs the 1% decay and the velocity
    grows. *)
Theorem autoland_flare (time : Q) (st : Sim) :
  isPaused st = false -> isLanding st = true ->
  0.5 < altitude st -> altitude st <= 15 ->
  let v := velocity (params st) in
  let a := angleOfAttack (params st) in
  let st' := loop time st in
  let v' := velocity (params st') in
  let a' := angleOfAttack (params st') in
  (isLanding st' = true
   /\ landingStatus st' = "FLARE / REDUCE THRUST"%string)
  /\ (-2 <= a /\ a <= 15 -> a' - 8.5 == 0.9 * (a - 8.5))
  /\ (40 <= v -> v' < v)
  /\ (0 <= v /\ v <= 39 -> v < v').
Proof.
  intros Hp Hl Hlo Hhi. cbv zeta.
  destruct (loop_landing_params time st Hp Hl) as (Hpar & Hland & Hst).
  cbv zeta in *. rewrite Hpar, Hland, Hst.
  unfold landingUpdater. cbv zeta.
  apply js_gt_false_iff in Hhi. apply js_gt_iff in Hlo.
  rewrite Hhi, Hlo.
  cbn [fst snd set_velocity_angleOfAttack velocity angleOfAttack].
  set (v := velocity (params st)).
  set (a := angleOfAttack (params st)).
  split; [split; reflexivity|].
  split; [|split].
  - intros [H1 H2].
    rewrite (clamp_inside (-2) 15 (a + (8.5 - a) * 0.1)) by lra.
    ring.
  - intro Hv.
    destruct (js_gt v (75 + 2)) eqn:E1;
      [|destruct (js_lt v (75 - 2)) eqn:E2]; js_reflect; lra.
  - intros [H1 H2].
    assert (E1 : js_gt v (75 + 2) = false)
      by (apply js_gt_false_iff; lra).
    assert (E2 : js_lt v (75 - 2) = true) by (apply js_lt_iff; lra).
    rewrite E1, E2. lra.
Qed.

Lemma autoland_flare_witness :
  velocity (params (loop 16 (flareSim 70))) < 70
  /\ 20 < velocity (params (loop 16 (flareSim 20))).
Proof.
  split.
  - apply (autoland_flare 16 (flareSim 70));
      [reflexivity | reflexivity | reflexivity | vm_compute; discriminate
      | vm_compute; discriminate].
  - apply (autoland_flare 16 (flareSim 20));
      [reflexivity | reflexivity | reflexivity | vm_compute; discriminate
      | split; vm_compute; discriminate].
Defined.

(** * Further properties of altitude hold and auto-mission *)

Lemma altHoldBranch_angle (st : Sim) (prev : FlightParams) :
  altHoldBranch st prev = prev
  \/ exists c, -5 <= c /\ c <= 15
               /\ altHoldBranch st prev
                  = set_angleOfAttack prev
                      (angleOfAttack prev + (c - angleOfAttack prev) * 0.02).
Proof.
  unfold altHoldBranch.
  destruct (isAltHold st && negb (isLanding st)
            && isFlying (results (params st) (altitude st)));
    [|left; reflexivity].
  destruct (js_gt (totalAirspeed (params st)) 10); [|left; reflexivity].
  right. exists (clampedAoA (params st) (currentAirDensity (altitude st))).
  unfold clampedAoA.
  set (x := targetAoADeg _ _). clearbody x.
  destruct (Math_max_cases (-5) x) as [[A1 A2] | [A1 A2]];
    destruct (Math_min_cases 15 (Math_max (-5) x)) as [[B1 B2] | [B1 B2]];
    (split; [|split; [|reflexivity]]); rewrite B2; lra.
Qed.

Lemma landingUpdater_velocity_range (alt : Q) (r : SimulationResults)
    (w d : Q) (prev : FlightParams) :
  0 <= velocity prev -> velocity prev <= 650 ->
  0 <= velocity (fst (fst (landingUpdater alt r w d prev)))
  /\ velocity (fst (fst (landingUpdater alt r w d prev))) <= 650.
Proof.
  intros H0 H1. unfold landingUpdater. cbv zeta.
  set (v := velocity prev) in *.
  destruct (js_gt v (75 + 2)) eqn:E1;
    [|destruct (js_lt v (75 - 2)) eqn:E2];
    (destruct (js_gt alt 15);
     [|destruct (js_gt alt 0.5);
       [|match goal with
         | |- context [Math_max 0 ?x] =>
             destruct (Math_max_cases 0 x) as [[A1 A2] | [A1 A2]];
             destruct (js_eq (Math_max 0 x) 0)
         end]]);
    cbn [fst set_velocity_angleOfAttack velocity]; js_reflect;
    rewrite ?A2; split; lra.
Qed.

(** X17.  The autopilots respect the ranges of the cockpit sliders: from a
    velocity in 0..650 and an angle of attack in -5..25, a frame of [loop]
    (altitude hold or any phase of autoland) and a tick of auto-mission
    leave both within these ranges. *)
Theorem autopilots_keep_slider_ranges (time : Q) (st : Sim) :
  in_slider_ranges (params st) ->
  in_slider_ranges (params (loop time st))
  /\ in_slider_ranges (params (autoMissionTick st)).
Proof.
  unfold in_slider_ranges, MAX_VELOCITY.
  intros (V0 & V1 & A0 & A1). split.
  - rewrite loop_params.
    destruct (negb (isPaused st)); [|repeat split; assumption].
    assert (Hhold :
      let p := altHoldBranch st (params st) in
      0 <= velocity p /\ velocity p <= 650
      /\ -5 <= angleOfAttack p /\ angleOfAttack p <= 25).
    { cbv zeta.
      destruct (altHoldBranch_angle st (params st))
        as [E | (c & C0 & C1 & E)]; rewrite E;
        [repeat split; assumption|].
      cbn [set_angleOfAttack velocity angleOfAttack].
      repeat split; lra. }
    cbv zeta in Hhold. destruct Hhold as (W0 & W1 & B0 & B1).
    set (p1 := altHoldBranch st (params st)) in *. clearbody p1.
    unfold landingBranch.
    destruct (isLanding st); [|cbn [fst]; repeat split; assumption].
    destruct (landingUpdater_velocity_range (altitude st)
                (results (params st) (altitude st))
                (weightForce (params st)) (massDamping (params st)) p1
                W0 W1) as [R0 R1].
    destruct (landingUpdater_angle (altitude st)
                (results (params st) (altitude st))
                (weightForce (params st)) (massDamping (params st)) p1)
      as [x Hx].
    rewrite Hx.
    destruct (clamp_bounds (-2) 15 x) as [K0 K1]; [lra|].
    repeat split; try assumption; lra.
  - rewrite autoMissionTick_params.
    destruct (autoThrottle st && negb (isPaused st) && negb (isLanding st));
      [|repeat split; assumption].
    unfold autoMissionUpdater, MAX_VELOCITY. cbv zeta.
    assert (Hc : 0 <= 700 / 3.6 /\ 700 / 3.6 <= 200)
      by (split; vm_compute; discriminate).
    set (cruise := 700 / 3.6) in *. clearbody cruise.
    set (v := velocity (params st)) in *.
    set (a := angleOfAttack (params st)) in *.
    destruct (js_lt (altitude st) 50);
      [|destruct (js_lt (altitude st) (10000 - 100))];
      cbn [fst set_velocity_angleOfAttack velocity angleOfAttack].
    + destruct (Math_min_cases (v + 1.5) 650) as [[M1 M2] | [M1 M2]];
        rewrite M2; destruct (isFlying _); repeat split; lra.
    + destruct (js_lt v cruise) eqn:E; js_reflect; repeat split; lra.
    + repeat split; lra.
Qed.

Lemma autopilots_keep_slider_ranges_witness :
  in_slider_ranges (params (loop 16 (rolloutSim 80)))
  /\ in_slider_ranges (params (autoMissionTick (missionSim 0 649 false))).
Proof.
  split.
  - apply (autopilots_keep_slider_ranges 16 (rolloutSim 80)).
    unfold in_slider_ranges. repeat split; vm_compute; discriminate.
  - apply (autopilots_keep_slider_ranges 16 (missionSim 0 649 false)).
    unfold in_slider_ranges. repeat split; vm_compute; discriminate.
Defined.

(** X18.  With altitude hold in control, a frame shrinks the distance of the
    angle of attack to the clamped target by the factor 0.98, so an angle
    within -5..15 stays there and an angle on the target stays on it. *)
Theorem altitude_hold_contracts (time : Q) (st : Sim) :
  isPaused st = false -> isAltHold st = true -> isLanding st = false ->
  isFlying (results (params st) (altitude st)) = true ->
  10 < totalAirspeed (params st) ->
  let a := angleOfAttack (params st) in
  let a' := angleOfAttack (params (loop time st)) in
  let c := clampedAoA (params st) (currentAirDensity (altitude st)) in
  a' - c == 0.98 * (a - c)
  /\ (-5 <= c /\ c <= 15)
  /\ (-5 <= a /\ a <= 15 -> -5 <= a' /\ a' <= 15).
Proof.
  intros Hp Hh Hl Hf Hv. cbv zeta.
  rewrite (loop_altitude_hold time st Hp Hh Hl Hf Hv).
  change (Math_min 15 (Math_max (-5) _))
    with (clampedAoA (params st) (currentAirDensity (altitude st))).
  assert (Hc : -5 <= clampedAoA (params st)
                        (currentAirDensity (altitude st))
               /\ clampedAoA (params st) (currentAirDensity (altitude st))
                  <= 15).
  { unfold clampedAoA. set (x := targetAoADeg _ _). clearbody x.
    destruct (Math_max_cases (-5) x) as [[A1 A2] | [A1 A2]];
      destruct (Math_min_cases 15 (Math_max (-5) x))
        as [[B1 B2] | [B1 B2]]; rewrite B2; split; lra. }
  set (c := clampedAoA _ _) in *. clearbody c.
  set (a := angleOfAttack (params st)). clearbody a.
  split; [ring|]. split; [exact Hc|]. intros [H1 H2]. split; lra.
Qed.

Lemma altitude_hold_contracts_witness :
  -5 <= angleOfAttack (params (loop 16 cessnaHoldSim))
  /\ angleOfAttack (params (loop 16 cessnaHoldSim)) <= 15.
Proof.
  apply (altitude_hold_contracts 16 cessnaHoldSim);
    [reflexivity | reflexivity | reflexivity | reflexivity | reflexivity
    | split; vm_compute; discriminate].
Defined.

(** X19.  For the wing type [airbus] the angle that altitude hold steers to is
    the angle of level flight: when it lies within the clamp -5..15, an
    aircraft flown at that angle has a lift equal to its weight. *)
Theorem altitude_hold_target_is_level_flight_airbus
    (p : FlightParams) (alt : Q) :
  wingType p = airbus ->
  0 <= weight p -> 0 < wingSpan p -> 0 < chordLength p ->
  10 < totalAirspeed p ->
  let target := targetAoADeg p (currentAirDensity alt) in
  -5 <= target -> target <= 15 ->
  liftForce (results (set_angleOfAttack p target) alt) == weightForce p.
Proof.
  intros Hw HW Hs Hc Hv. cbv zeta. intros Hlo Hhi.
  pose proof (targetCl_divisor_pos p alt Hs Hc Hv) as Hd.
  assert (H16 : angleOfAttack
                  (set_angleOfAttack p
                     (targetAoADeg p (currentAirDensity alt))) <= 16)
    by (cbn; lra).
  unfold results. cbn [liftForce].
  rewrite (cl_unstalled _ H16).
  cbn [set_angleOfAttack angleOfAttack wingType wingSpan chordLength].
  change (totalAirspeed (set_angleOfAttack p _)) with (totalAirspeed p).
  rewrite Hw. change (baseCl airbus) with 0.45.
  unfold targetAoADeg in *. rewrite Hw in *. cbn [WingType_eqb] in *.
  assert (HWf : 0 <= weightForce p) by (unfold weightForce, GRAVITY; lra).
  assert (Htc : 0 <= targetCl p (currentAirDensity alt)).
  { unfold targetCl. cbv zeta. apply Qle_shift_div_l; [exact Hd | lra]. }
  assert (Hmul : targetCl p (currentAirDensity alt)
                 * (0.5 * currentAirDensity alt
                    * Math_pow (totalAirspeed p) 2
                    * (wingSpan p * chordLength p))
                 == weightForce p).
  { unfold targetCl. cbv zeta.
    set (d := 0.5 * currentAirDensity alt * Math_pow (totalAirspeed p) 2
              * (wingSpan p * chordLength p)) in *.
    clearbody d. field. lra. }
  set (tc := targetCl p (currentAirDensity alt)) in *. clearbody tc.
  set (k := 0.5 * currentAirDensity alt * Math_pow (totalAirspeed p) 2)
    in *. clearbody k.
  set (s := wingSpan p * chordLength p) in *. clearbody s.
  pose proof Math_PI_pos as Hpi.
  set (pi := Math_PI) in *. clearbody pi.
  assert (Hinv : 2 * pi * ((tc - 0.45) / (2 * pi) * (180 / pi) * pi / 180)
                 + 0.45 == tc) by (field; lra).
  rewrite Hinv.
  destruct (Math_max_cases 0 tc) as [[A1 A2] | [A1 A2]]; rewrite A2.
  - rewrite <- Hmul. ring.
  - assert (E : tc == 0) by lra. rewrite <- Hmul. rewrite E. ring.
Qed.

Lemma altitude_hold_target_is_level_flight_airbus_witness :
  let p := params airbusHoldSim in
  liftForce
    (results (set_angleOfAttack p (targetAoADeg p (currentAirDensity 1000)))
       1000)
  == weightForce p.
Proof.
  cbv zeta.
  apply (altitude_hold_target_is_level_flight_airbus
           (params airbusHoldSim) 1000);
    [reflexivity | vm_compute; discriminate | reflexivity | reflexivity
    | reflexivity | vm_compute; discriminate | vm_compute; discriminate].
Defined.

(** A tick of auto-mission changes the velocity, the angle of attack and
    the altitude-hold flag only, and nothing at all while auto-mission is
    off, the simulation is paused or autoland is on. *)
Theorem auto_mission_tick_frame (st : Sim) :
  let st' := autoMissionTick st in
  (altitude st' = altitude st /\ distance st' = distance st
   /\ flightTime st' = flightTime st /\ autoThrottle st' = autoThrottle st
   /\ isPaused st' = isPaused st /\ isLanding st' = isLanding st
   /\ landingStatus st' = landingStatus st
   /\ lastTimeRef st' = lastTimeRef st)
  /\ (autoThrottle st = false \/ isPaused st = true \/ isLanding st = true
      -> st' = st).
Proof.
  cbv zeta. unfold autoMissionTick.
  destruct (autoThrottle st && negb (isPaused st) && negb (isLanding st))
    eqn:G.
  - destruct (autoMissionUpdater _ _ _) as [p h]. cbn.
    split; [repeat split; reflexivity|].
    apply andb_true_iff in G. destruct G as [G G3].
    apply andb_true_iff in G. destruct G as [G1 G2].
    apply negb_true_iff in G2, G3.
    intros [H | [H | H]]; congruence.
  - split; [repeat split; reflexivity | reflexivity].
Qed.

Lemma auto_mission_tick_frame_witness :
  autoMissionTick (toggle Autoland cruisingSim)
  = toggle Autoland cruisingSim.
Proof.
  apply (auto_mission_tick_frame (toggle Autoland cruisingSim)).
  left. reflexivity.
Defined.

(** X20.  Leaving auto-mission.  Switching auto-mission off clears the landing
    flag and keeps the altitude-hold flag: after a tick of the cruise
    phase (9900 m and above) the AUTO MISSION button hands the aircraft
    over to altitude hold alone. *)
Theorem leaving_cruise_keeps_altitude_hold (st : Sim) :
  autoThrottle st = true -> isPaused st = false -> isLanding st = false ->
  (let st' := toggleAutoV st in
   autoThrottle st' = false /\ isLanding st' = false
   /\ isAltHold st' = isAltHold st)
  /\ (9900 <= altitude st ->
      let st' := toggleAutoV (autoMissionTick st) in
      autoThrottle st' = false /\ isLanding st' = false
      /\ isAltHold st' = true).
Proof.
  intros Ha Hp Hl. cbv zeta. split.
  - unfold toggleAutoV. cbn. rewrite Ha, Hl. repeat split; reflexivity.
  - intro Halt. unfold autoMissionTick. rewrite Ha, Hp, Hl. cbn [andb negb].
    unfold autoMissionUpdater. cbv zeta.
    assert (E1 : js_lt (altitude st) 50 = false)
      by (apply js_lt_false_iff; lra).
    assert (E2 : js_lt (altitude st) (10000 - 100) = false)
      by (apply js_lt_false_iff; lra).
    rewrite E1, E2. unfold toggleAutoV. cbn. rewrite ?Ha, ?Hl.
    repeat split; reflexivity.
Qed.

Lemma leaving_cruise_keeps_altitude_hold_witness :
  isAltHold (toggleAutoV (autoMissionTick (missionSim 9950 190 false)))
  = true.
Proof.
  apply (leaving_cruise_keeps_altitude_hold (missionSim 9950 190 false));
    [reflexivity | reflexivity | reflexivity | vm_compute; discriminate].
Defined.

(** X21.  Cancelling autoland with its own button.  In the air or above the
    ground the AUTO LAND button switches autoland off and leaves no mode
    on; on the ground and not flying (the roll-out) the button does
    nothing and autoland stays on. *)
Theorem cancelling_autoland (st : Sim) :
  isLanding st = true ->
  (isFlying (results (params st) (altitude st)) = true \/ 0 < altitude st ->
   let st' := toggleLanding st in
   isLanding st' = false /\ isAltHold st' = false
   /\ autoThrottle st' = false)
  /\ (isFlying (results (params st) (altitude st)) = false ->
      altitude st <= 0 -> toggleLanding st = st).
Proof.
  intro Hl. cbv zeta. unfold toggleLanding. cbv zeta. split.
  - intro H.
    assert (G : negb (isFlying (results (params st) (altitude st)))
                && js_le (altitude st) 0 = false).
    { destruct H as [H | H].
      - rewrite H. reflexivity.
      - apply js_le_false_iff in H. rewrite H. apply andb_false_r. }
    rewrite G. cbn. rewrite Hl.
    destruct (isAltHold st), (autoThrottle st); repeat split; reflexivity.
  - intros Hf Ha. apply js_le_iff in Ha. rewrite Hf, Ha. reflexivity.
Qed.

Lemma cancelling_autoland_witness :
  toggleLanding (rolloutSim 60) = rolloutSim 60.
Proof.
  apply (cancelling_autoland (rolloutSim 60));
    [reflexivity | reflexivity | vm_compute; discriminate].
Defined.

(** * Standing still *)

Lemma rest_frame (time : Q) (st : Sim) :
  at_rest st -> lastTimeRef st <= time ->
  params (loop time st) = params st
  /\ altitude (loop time st) = 0
  /\ distance (loop time st) == distance st
  /\ flightTime (loop time st) = flightTime st
  /\ lastTimeRef (loop time st) = time
  /\ at_rest (loop time st).
Proof.
  intros (Hv & Hw & Ha & HW & Hh & Hl & Hp) Ht.
  destruct (loop_running time st Hp)
    as (Halt & Hd & Hf & _ & Hp' & Hh' & Hl' & _ & Hlast).
  cbv zeta in *.
  assert (Hpar : params (loop time st) = params st).
  { rewrite loop_params, Hp. cbn [negb].
    unfold landingBranch, altHoldBranch. rewrite Hh, Hl. reflexivity. }
  assert (HV : totalAirspeed (params st) == 0)
    by (unfold totalAirspeed; lra).
  assert (Hlift : liftForce (results (params st) (altitude st)) == 0).
  { unfold results. cbn [liftForce]. rewrite Math_pow_2, HV. ring. }
  assert (Hfly : isFlying (results (params st) (altitude st)) = false).
  { unfold results. cbn [isFlying].
    assert (E : js_gt (totalAirspeed (params st)) 25 = false)
      by (apply js_gt_false_iff; lra).
    rewrite E. apply andb_false_r. }
  pose proof (frame_dt_nonneg time st Ht) as Hdt.
  assert (Hc : climbRate (params st) (results (params st) (altitude st))
               <= 0).
  { apply climbRate_sign. unfold weightForce, GRAVITY. lra. }
  assert (Halt0 : altitude (loop time st) = 0).
  { rewrite Halt. unfold updateAltitude. cbv zeta.
    set (c := climbRate _ _) in *. clearbody c.
    set (dt := frame_dt time st) in *. clearbody dt.
    assert (E : js_le (altitude st + c * dt) 0 = true)
      by (apply js_le_iff; nra).
    rewrite E. reflexivity. }
  assert (Hflight : flightTime (loop time st) = flightTime st).
  { rewrite Hf, Hfly.
    assert (E : js_gt (velocity (params st)) 0 = false)
      by (apply js_gt_false_iff; lra).
    rewrite E. reflexivity. }
  split; [exact Hpar|]. split; [exact Halt0|].
  split; [rewrite Hd, Hv; ring|]. split; [exact Hflight|].
  split; [exact Hlast|].
  unfold at_rest. rewrite Hpar, Halt0, Hh', Hp'.
  assert (Hl0 : isLanding (loop time st) = false).
  { rewrite Hl'. unfold landingBranch. rewrite Hl. reflexivity. }
  rewrite Hl0. repeat split; try assumption; reflexivity.
Qed.

(** X22.  An aircraft standing on the ground in still air, with altitude hold
    and autoland off, stands still for any number of frames whose
    timestamps do not run backwards: the parameters and the flight time
    are unchanged, the altitude stays 0 and so does the distance covered. *)
Theorem rest_is_stable (ts : list Q) (st : Sim) :
  at_rest st -> ascending (lastTimeRef st) ts ->
  params (frames ts st) = params st
  /\ altitude (frames ts st) == 0
  /\ distance (frames ts st) == distance st
  /\ flightTime (frames ts st) = flightTime st.
Proof.
  revert st. induction ts as [|t ts IH]; intros st Hrest Hasc.
  - cbn. destruct Hrest as (_ & _ & Ha & _).
    repeat split; try reflexivity. exact Ha.
  - cbn [frames]. destruct Hasc as [Ht Hasc].
    destruct (rest_frame t st Hrest Ht)
      as (Hpar & Halt & Hd & Hf & Hlast & Hrest').
    rewrite <- Hlast in Hasc.
    destruct (IH (loop t st) Hrest' Hasc) as (I1 & I2 & I3 & I4).
    rewrite I1, I3, I4, Hpar, Hd, Hf.
    repeat split; try reflexivity. exact I2.
Qed.

(** After a reset of the cruising aircraft, three frames later. *)
Lemma rest_is_stable_witness :
  altitude (frames [16; 33; 50] (resetStats cruisingSim)) == 0
  /\ distance (frames [16; 33; 50] (resetStats cruisingSim)) == 0.
Proof.
  destruct (rest_is_stable [16; 33; 50] (resetStats cruisingSim))
    as (_ & H1 & H2 & _).
  - unfold at_rest. cbn.
    repeat split; try reflexivity; vm_compute; discriminate.
  - cbn. repeat split; vm_compute; discriminate.
  - split; [exact H1 | rewrite H2; reflexivity].
Defined.

(** * Wing profiles *)

(** X23.  Each of the six profile buttons sets the wing type, weight, span and
    chord of its profile, keeps velocity, head wind and angle of attack,
    and leaves parameters for which the take-off speed and the load factor
    are computed without a division by zero; the profiles cover the six
    wing types, one each. *)
Theorem wing_profiles_are_safe (wp : WingProfile) (st : Sim) (alt : Q) :
  In wp wingProfiles ->
  let p := params (clickWingProfile wp st) in
  (wingType p = wp_id wp /\ weight p = wp_weight wp
   /\ wingSpan p = wp_span wp /\ chordLength p = wp_chord wp
   /\ velocity p = velocity (params st)
   /\ headWind p = headWind (params st)
   /\ angleOfAttack p = angleOfAttack (params st))
  /\ (exists q, requiredTakeoffSpeed_radicand p alt = Some q /\ 0 <= q)
  /\ (exists n, loadFactor_checked (results p alt) p = Some n)
  /\ (NoDup (map wp_id wingProfiles)
      /\ forall w, In w (map wp_id wingProfiles)).
Proof.
  intro Hin. cbv zeta.
  assert (Hpos : 0 < wp_weight wp /\ 0 < wp_span wp /\ 0 < wp_chord wp).
  { cbn in Hin.
    repeat (destruct Hin as [<- | Hin]; [repeat split; reflexivity|]).
    contradiction. }
  destruct Hpos as (HW & HS & HC).
  split; [cbn; repeat split; reflexivity|].
  set (p := params (clickWingProfile wp st)).
  assert (Hs : 0 < wingSpan p) by exact HS.
  assert (Hc : 0 < chordLength p) by exact HC.
  assert (Hw : 0 < weight p) by exact HW.
  pose proof (requiredTakeoffSpeed_divisor_pos p alt Hs Hc) as Hd.
  split; [|split; [|split]].
  - eexists. split.
    + unfold requiredTakeoffSpeed_radicand. apply safe_div_defined. lra.
    + apply Qle_shift_div_l; [exact Hd|].
      unfold weightForce, GRAVITY. lra.
  - eexists. unfold loadFactor_checked. apply safe_div_defined. lra.
  - cbn. repeat constructor; cbn; intuition discriminate.
  - intro w. cbn. destruct w; tauto.
Qed.

Lemma wing_profiles_are_safe_witness :
  wingType
    (params (clickWingProfile
               {| wp_id := thin; wp_weight := 12000; wp_span := 9.96;
                  wp_chord := 3.5 |} cruisingSim)) = thin.
Proof.
  apply (wing_profiles_are_safe
           {| wp_id := thin; wp_weight := 12000; wp_span := 9.96;
              wp_chord := 3.5 |} cruisingSim 0).
  cbn. tauto.
Defined.

(** * Sound, HUD and canvas *)




(** X25.  The wing on the canvas.  With a chord of at least 2 m the drawn wing is
    [500 * zoom] pixels long whatever the chord, below that it is
    [250 * chord * zoom]; and the wing is drawn at most [0.4 * height]
    above its ground position, however high the aircraft flies. *)
Theorem canvas_wing_geometry (p : FlightParams) (zoom height : Q)
    (r : SimulationResults) :
  (2 <= chordLength p ->
   SimulationCanvas.wingLength p zoom == 500 * zoom)
  /\ (chordLength p <= 2 ->
      SimulationCanvas.wingLength p zoom == 250 * chordLength p * zoom)
  /\ height * 0.6 - 170 <= SimulationCanvas.centerY height r
  /\ (0 <= resAltitude r -> 0 <= height ->
      SimulationCanvas.centerY height r <= height - 170).
Proof.
  unfold SimulationCanvas.wingLength, SimulationCanvas.centerY,
    SimulationCanvas.visualAltOffset. cbv zeta.
  set (c := chordLength p).
  assert (E : c / 2 == c * (1 # 2)) by field.
  assert (E' : resAltitude r / 10 == resAltitude r * (1 # 10)) by field.
  split; [|split; [|split]].
  - intro H.
    destruct (Math_max_cases 1 (c / 2)) as [[A1 A2] | [A1 A2]].
    + rewrite A2. field. lra.
    + assert (Hc : c == 2) by lra. rewrite A2, Hc. field.
  - intro H.
    destruct (Math_max_cases 1 (c / 2)) as [[A1 A2] | [A1 A2]].
    + exfalso. lra.
    + rewrite A2. field.
  - destruct (Math_min_cases (height * 0.4) (resAltitude r / 10))
      as [[A1 A2] | [A1 A2]]; rewrite A2; lra.
  - intros Ha Hh.
    destruct (Math_min_cases (height * 0.4) (resAltitude r / 10))
      as [[A1 A2] | [A1 A2]]; rewrite A2; lra.
Qed.

Lemma canvas_wing_geometry_witness :
  SimulationCanvas.wingLength initialParams 1 == 500.
Proof.
  destruct (canvas_wing_geometry initialParams 1 1000
              (results initialParams 0)) as [H _].
  rewrite H; [reflexivity | vm_compute; discriminate].
Defined.

(** * [formatTime] *)

Lemma Qfloor_unique (x : Q) (z : Z) :
  inject_Z z <= x -> x < inject_Z (z + 1) -> Qfloor x = z.
Proof.
  intros H1 H2.
  pose proof (Qfloor_le x) as F1. pose proof (Qlt_floor x) as F2.
  assert (A : inject_Z z < inject_Z (Qfloor x + 1)) by lra.
  assert (B : inject_Z (Qfloor x) < inject_Z (z + 1)) by lra.
  rewrite <- Zlt_Qlt in A, B. lia.
Qed.

Lemma inject_Z_pos (n : Z) : (0 < n)%Z -> 0 < inject_Z n.
Proof. intro H. unfold Qlt. cbn. lia. Qed.

Lemma Qfloor_div_Z (x : Q) (n : Z) :
  (0 < n)%Z -> Qfloor (x / inject_Z n) = (Qfloor x / n)%Z.
Proof.
  intro Hn. apply Qfloor_unique.
  - pose proof (Qfloor_le x) as F1.
    assert (Hq : (0 < inject_Z n)) by (apply inject_Z_pos; exact Hn).
    apply Qle_shift_div_l; [exact Hq|].
    rewrite <- inject_Z_mult.
    assert (L : (Qfloor x / n * n <= Qfloor x)%Z)
      by (pose proof (Z.mul_div_le (Qfloor x) n Hn); lia).
    rewrite Zle_Qle in L. lra.
  - pose proof (Qlt_floor x) as F2.
    assert (Hq : (0 < inject_Z n)) by (apply inject_Z_pos; exact Hn).
    apply Qlt_shift_div_r; [exact Hq|].
    rewrite <- inject_Z_mult.
    assert (L : (Qfloor x + 1 <= (Qfloor x / n + 1) * n)%Z).
    { pose proof (Z.mod_pos_bound (Qfloor x) n Hn).
      pose proof (Z.div_mod (Qfloor x) n). lia. }
    rewrite Zle_Qle in L. lra.
Qed.

Lemma Qfloor_minus_Z (x : Q) (z : Z) :
  Qfloor (x - inject_Z z) = (Qfloor x - z)%Z.
Proof.
  apply Qfloor_unique.
  - pose proof (Qfloor_le x). unfold Zminus.
    rewrite inject_Z_plus, inject_Z_opp. lra.
  - pose proof (Qlt_floor x) as F.
    replace (Qfloor x - z + 1)%Z with ((Qfloor x + 1) + - z)%Z by lia.
    rewrite inject_Z_plus, inject_Z_opp. lra.
Qed.

Lemma js_rem_nonneg (x : Q) (n : Z) :
  0 <= x -> (0 < n)%Z ->
  js_rem x (inject_Z n) == x - inject_Z (n * (Qfloor x / n)).
Proof.
  intros Hx Hn. unfold js_rem, js_trunc.
  assert (Hq : (0 < inject_Z n)) by (apply inject_Z_pos; exact Hn).
  assert (H0 : 0 <= x / inject_Z n)
    by (apply Qle_shift_div_l; [exact Hq | lra]).
  apply Qle_bool_iff in H0. rewrite H0.
  rewrite (Qfloor_div_Z x n Hn), inject_Z_mult. reflexivity.
Qed.

(** The three numbers [formatTime] prints, for a time that is not
    negative: the quotients and remainders of its integral part. *)
Lemma formatTime_parts (t : Q) :
  0 <= t ->
  let F := Qfloor t in
  Math_floor (t / 3600) = (F / 3600)%Z
  /\ Math_floor (js_rem t 3600 / 60) = (F mod 3600 / 60)%Z
  /\ Math_floor (js_rem t 60) = (F mod 60)%Z.
Proof.
  intro Ht. cbv zeta. unfold Math_floor.
  change 3600 with (inject_Z 3600). change 60 with (inject_Z 60).
  split; [apply Qfloor_div_Z; lia|]. split.
  - rewrite (Qfloor_div_Z _ 60) by lia.
    rewrite (Qfloor_comp _ _ (js_rem_nonneg t 3600 Ht ltac:(lia))).
    rewrite Qfloor_minus_Z.
    f_equal. pose proof (Z.div_mod (Qfloor t) 3600). lia.
  - rewrite (Qfloor_comp _ _ (js_rem_nonneg t 60 Ht ltac:(lia))).
    rewrite Qfloor_minus_Z.
    pose proof (Z.div_mod (Qfloor t) 60). lia.
Qed.

(** X26.  [formatTime] of a time that is not negative prints hours, minutes and
    seconds [h], [m], [s] with [m] and [s] below 60 and
    [3600 h + 60 m + s] the integral part of the time; it depends on the
    integral part only. *)
Theorem formatTime_decomposes (t : Q) :
  0 <= t ->
  exists h m s : Z,
    formatTime t
    = String.concat ":"
        (map partToString
           (filter_indexed keepPart 0 (map padPart [h; m; s])))
    /\ (0 <= h)%Z /\ (0 <= m < 60)%Z /\ (0 <= s < 60)%Z
    /\ (3600 * h + 60 * m + s = Qfloor t)%Z
    /\ formatTime t = formatTime (inject_Z (Qfloor t)).
Proof.
  intro Ht.
  assert (HF : (0 <= Qfloor t)%Z).
  { change 0%Z with (Qfloor 0). apply Qfloor_resp_le. exact Ht. }
  destruct (formatTime_parts t Ht) as (Hh & Hm & Hs). cbv zeta in *.
  assert (Ht' : 0 <= inject_Z (Qfloor t)).
  { change 0 with (inject_Z 0). rewrite <- Zle_Qle. exact HF. }
  destruct (formatTime_parts _ Ht') as (Hh' & Hm' & Hs'). cbv zeta in *.
  rewrite Qfloor_Z in Hh', Hm', Hs'.
  exists (Qfloor t / 3600)%Z, (Qfloor t mod 3600 / 60)%Z,
    (Qfloor t mod 60)%Z.
  split; [unfold formatTime; cbv zeta; rewrite Hh, Hm, Hs; reflexivity|].
  split; [apply Z.div_pos; lia|].
  split; [pose proof (Z.mod_pos_bound (Qfloor t) 3600);
          pose proof (Z.div_mod (Qfloor t mod 3600) 60);
          pose proof (Z.mod_pos_bound (Qfloor t mod 3600) 60); lia|].
  split; [pose proof (Z.mod_pos_bound (Qfloor t) 60); lia|].
  split.
  - pose proof (Z.div_mod (Qfloor t) 3600).
    pose proof (Z.div_mod (Qfloor t mod 3600) 60).
    assert (E : ((Qfloor t mod 3600) mod 60 = Qfloor t mod 60)%Z).
    { pose proof (Z.div_mod (Qfloor t) 60).
      pose proof (Z.mod_pos_bound (Qfloor t) 60).
      pose proof (Z.mod_pos_bound (Qfloor t) 3600).
      pose proof (Z.mod_pos_bound (Qfloor t mod 3600) 60).
      lia. }
    lia.
  - unfold formatTime. cbv zeta.
    rewrite Hh, Hm, Hs, Hh', Hm', Hs'. reflexivity.
Qed.

Lemma formatTime_decomposes_witness :
  formatTime 3725.5 = formatTime 3725.
Proof.
  destruct (formatTime_decomposes 3725.5) as (h & m & s & _ & _ & _ & _ & _ & E);
    [vm_compute; discriminate|].
  rewrite E. vm_compute. reflexivity.
Defined.

Lemma padded_part_two_digits (z : Z) :
  (0 <= z < 100)%Z ->
  String.length (partToString (padPart z)) = 2%nat
  /\ keepPart (padPart z) 0 = negb (z =? 0)%Z.
Proof.
  intro Hz.
  assert (Hall :
    forallb
      (fun n =>
         (String.length (partToString (padPart (Z.of_nat n))) =? 2)%nat
         && Bool.eqb (keepPart (padPart (Z.of_nat n)) 0)
              (negb (Z.of_nat n =? 0)%Z))
      (seq 0 100) = true) by (vm_compute; reflexivity).
  rewrite forallb_forall in Hall.
  specialize (Hall (Z.to_nat z)).
  rewrite Z2Nat.id in Hall by lia.
  assert (Hin : In (Z.to_nat z) (seq 0 100)) by (apply in_seq; lia).
  specialize (Hall Hin). apply andb_true_iff in Hall.
  destruct Hall as [H1 H2].
  apply Nat.eqb_eq in H1. apply Bool.eqb_prop in H2. split; assumption.
Qed.

Lemma length_append (a b : string) :
  String.length (a ++ b) = (String.length a + String.length b)%nat.
Proof. induction a as [|c a IH]; cbn; [reflexivity | rewrite IH; reflexivity]. Qed.

(** X27.  The shape of the printed time: below one hour it is "MM:SS", five
    characters with the hours left out; from one hour to below one hundred
    hours it is "HH:MM:SS", eight characters. *)
Theorem formatTime_shape (t : Q) :
  0 <= t ->
  (t < 3600 -> String.length (formatTime t) = 5%nat
               /\ String.get 2 (formatTime t) = Some ":"%char)
  /\ (3600 <= t -> t < 360000 ->
      String.length (formatTime t) = 8%nat).
Proof.
  intro Ht.
  assert (HF : (0 <= Qfloor t)%Z).
  { change 0%Z with (Qfloor 0). apply Qfloor_resp_le. exact Ht. }
  destruct (formatTime_parts t Ht) as (Hh & Hm & Hs). cbv zeta in *.
  unfold formatTime. cbv zeta. rewrite Hh, Hm, Hs.
  set (F := Qfloor t) in *.
  assert (Bm : (0 <= F mod 3600 / 60 < 100)%Z).
  { pose proof (Z.mod_pos_bound F 3600).
    pose proof (Z.div_mod (F mod 3600) 60).
    pose proof (Z.mod_pos_bound (F mod 3600) 60). lia. }
  assert (Bs : (0 <= F mod 60 < 100)%Z)
    by (pose proof (Z.mod_pos_bound F 60); lia).
  destruct (padded_part_two_digits _ Bm) as [Lm _].
  destruct (padded_part_two_digits _ Bs) as [Ls _].
  split.
  - intro Hlt.
    assert (HF1 : (F < 3600)%Z).
    { pose proof (Qfloor_le t) as F1. fold F in F1.
      assert (A : inject_Z F < inject_Z 3600) by (change (inject_Z 3600) with 3600; lra).
      rewrite <- Zlt_Qlt in A. exact A. }
    assert (Eh : (F / 3600 = 0)%Z) by (apply Z.div_small; lia).
    rewrite Eh.
    cbn [map filter_indexed]. change (keepPart (padPart 0) 0) with false.
    cbv iota. change (keepPart (padPart (F mod 3600 / 60)) 1)
      with (negb (match padPart (F mod 3600 / 60) with
                  | PartString s => String.eqb s "00"
                  | PartNumber _ => false
                  end) || true).
    change (keepPart (padPart (F mod 60)) 2)
      with (negb (match padPart (F mod 60) with
                  | PartString s => String.eqb s "00"
                  | PartNumber _ => false
                  end) || true).
    rewrite !orb_true_r. cbn [map String.concat].
    set (a := partToString (padPart (F mod 3600 / 60))) in *.
    set (b := partToString (padPart (F mod 60))) in *.
    clearbody a b. split.
    + rewrite !length_append, Lm, Ls. reflexivity.
    + destruct a as [|c1 [|c2 [|c3 a]]]; try discriminate. reflexivity.
  - intros Hge Hlt.
    assert (HF1 : (3600 <= F < 360000)%Z).
    { pose proof (Qfloor_le t) as F1. pose proof (Qlt_floor t) as F2.
      fold F in F1, F2.
      assert (A : inject_Z F < inject_Z 360000)
        by (change (inject_Z 360000) with 360000; lra).
      assert (B : inject_Z 3600 < inject_Z (F + 1))
        by (change (inject_Z 3600) with 3600; lra).
      rewrite <- Zlt_Qlt in A, B. lia. }
    assert (Bh : (0 <= F / 3600 < 100)%Z).
    { pose proof (Z.div_mod F 3600). pose proof (Z.mod_pos_bound F 3600).
      lia. }
    assert (Nh : (F / 3600 =? 0)%Z = false).
    { apply Z.eqb_neq. pose proof (Z.div_mod F 3600).
      pose proof (Z.mod_pos_bound F 3600). lia. }
    destruct (padded_part_two_digits _ Bh) as [Lh Kh].
    rewrite Nh in Kh. cbn [negb] in Kh.
    cbn [map filter_indexed]. rewrite Kh.
    change (keepPart (padPart (F mod 3600 / 60)) 1)
      with (negb (match padPart (F mod 3600 / 60) with
                  | PartString s => String.eqb s "00"
                  | PartNumber _ => false
                  end) || true).
    change (keepPart (padPart (F mod 60)) 2)
      with (negb (match padPart (F mod 60) with
                  | PartString s => String.eqb s "00"
                  | PartNumber _ => false
                  end) || true).
    rewrite !orb_true_r. cbn [map String.concat].
    rewrite !length_append, Lh, Lm, Ls. reflexivity.
Qed.

Lemma formatTime_shape_witness :
  String.length (formatTime 754.2) = 5%nat
  /\ String.length (formatTime 45296) = 8%nat.
Proof.
  split.
  - apply (formatTime_shape 754.2);
      [vm_compute; discriminate | reflexivity].
  - apply (formatTime_shape 45296);
      [vm_compute; discriminate | vm_compute; discriminate | reflexivity].
Defined.

(** * The lift curve of the dashboard *)

Lemma Math_round_monotone (x y : Q) :
  x <= y -> (Math_round x <= Math_round y)%Z.
Proof. intro H. unfold Math_round. apply Qfloor_resp_le. lra. Qed.

(** X28.  The chart always has 14 points, and along the speed axis neither the
    speed in km/h nor the lift decreases, for every angle of attack and
    wing type, provided the air density, the wing area and the head wind
    are not negative; no lift value is negative. *)
Theorem chart_is_monotone (p : FlightParams) (v1 v2 : Q) :
  0 <= airDensity p -> 0 <= wingSpan p * chordLength p ->
  0 <= headWind p -> 0 <= v1 -> v1 <= v2 ->
  List.length (StatsDashboard.generateChartData p) = 14%nat
  /\ (fst (StatsDashboard.chartPoint p v1)
      <= fst (StatsDashboard.chartPoint p v2))%Z
  /\ (snd (StatsDashboard.chartPoint p v1)
      <= snd (StatsDashboard.chartPoint p v2))%Z
  /\ (0 <= snd (StatsDashboard.chartPoint p v1))%Z.
Proof.
  intros Hrho Hs Hw H1 H12.
  split.
  { rewrite generateChartData_map, sampledSpeeds_eq, length_map.
    reflexivity. }
  unfold StatsDashboard.chartPoint. cbv zeta. cbn [fst snd].
  rewrite !Math_pow_2.
  set (M := Math_max 0 _).
  assert (HM : 0 <= M) by (unfold M, Math_max; apply Q.le_max_l).
  clearbody M.
  set (s := wingSpan p * chordLength p) in *. clearbody s.
  set (rho := airDensity p) in *. clearbody rho.
  set (w := headWind p) in *. clearbody w.
  assert (HB : (v1 + w) * (v1 + w) <= (v2 + w) * (v2 + w)) by nra.
  assert (HB0 : 0 <= (v1 + w) * (v1 + w)) by nra.
  set (B1 := (v1 + w) * (v1 + w)) in *. set (B2 := (v2 + w) * (v2 + w)) in *.
  clearbody B1 B2.
  assert (HA : 0.5 * rho * B1 <= 0.5 * rho * B2) by nra.
  assert (HA0 : 0 <= 0.5 * rho * B1) by nra.
  assert (HC : 0.5 * rho * B1 * s <= 0.5 * rho * B2 * s)
    by (apply Qmult_le_compat_r; assumption).
  assert (HC0 : 0 <= 0.5 * rho * B1 * s)
    by (apply Qmult_le_0_compat; assumption).
  assert (HD : 0.5 * rho * B1 * s * M <= 0.5 * rho * B2 * s * M)
    by (apply Qmult_le_compat_r; assumption).
  assert (HD0 : 0 <= 0.5 * rho * B1 * s * M)
    by (apply Qmult_le_0_compat; assumption).
  split; [apply Math_round_monotone; lra|].
  split; [apply Math_round_monotone; exact HD|].
  change 0%Z with (Math_round 0). apply Math_round_monotone. exact HD0.
Qed.

Lemma chart_is_monotone_witness :
  (snd (StatsDashboard.chartPoint initialParams 50)
   <= snd (StatsDashboard.chartPoint initialParams 100))%Z.
Proof.
  apply (chart_is_monotone initialParams 50 100);
    vm_compute; discriminate.
Defined.

(** * Invariants of the reachable states *)

Lemma step_flags (e : Event) (st : Sim) :
  (landing_exclusive st = true -> landing_exclusive (step e st) = true)
  /\ (is_mission_tick e = false -> at_most_one_mode st = true ->
      at_most_one_mode (step e st) = true).
Proof.
  destruct e; cbn [step is_mission_tick].
  - (* Frame *)
    destruct (isPaused st) eqn:Hp.
    + rewrite (loop_paused time st Hp).
      unfold landing_exclusive, at_most_one_mode. cbn. tauto.
    + destruct (loop_running time st Hp)
        as (_ & _ & _ & Ha & _ & Hh & Hl & _ & _).
      cbv zeta in *.
      assert (Hland : isLanding (loop time st) = true
                      -> isLanding st = true).
      { rewrite Hl. unfold landingBranch.
        destruct (isLanding st); [reflexivity | cbn; intro H; exact H]. }
      unfold landing_exclusive, at_most_one_mode. rewrite Ha, Hh.
      destruct (isLanding (loop time st)) eqn:E;
        [rewrite (Hland eq_refl); tauto|].
      destruct (autoThrottle st), (isAltHold st), (isLanding st);
        cbn; split; intros; try reflexivity; try discriminate.
  - (* MissionTick *)
    split; [|discriminate].
    unfold landing_exclusive, autoMissionTick.
    destruct (autoThrottle st) eqn:Ea, (isPaused st) eqn:Hp,
      (isLanding st) eqn:El; cbn [andb negb orb];
      rewrite ?Ea, ?El; try (intro H; exact H).
    destruct (autoMissionUpdater _ _ _) as [p h]. cbn. rewrite ?El.
    intros _. reflexivity.
  - (* Press *)
    split; [|intros _; apply toggle_preserves_at_most_one].
    unfold landing_exclusive.
    destruct m; cbn [toggle].
    + unfold toggleAutoV; cbn.
      destruct (autoThrottle st), (isAltHold st), (isLanding st);
        cbn; congruence.
    + unfold toggleAltHold.
      destruct (isLanding st) eqn:El, (autoThrottle st) eqn:Ea,
        (isAltHold st) eqn:Eh; cbn; rewrite ?El, ?Ea, ?Eh; cbn; congruence.
    + unfold toggleLanding.
      destruct (negb (isFlying (results (params st) (altitude st)))
                && js_le (altitude st) 0);
        destruct (isLanding st) eqn:El, (autoThrottle st) eqn:Ea,
          (isAltHold st) eqn:Eh; cbn; rewrite ?El, ?Ea, ?Eh; cbn;
        congruence.
  - unfold landing_exclusive, at_most_one_mode. cbn. tauto.
  - unfold landing_exclusive, at_most_one_mode. cbn. tauto.
  - unfold landing_exclusive, at_most_one_mode. cbn. tauto.
  - unfold inputVelocity.
    destruct (isLanding st || autoThrottle st);
      unfold landing_exclusive, at_most_one_mode; cbn; tauto.
  - unfold inputAngleOfAttack.
    destruct (isAltHold st || isLanding st || autoThrottle st);
      unfold landing_exclusive, at_most_one_mode; cbn; tauto.
  - unfold landing_exclusive, at_most_one_mode. cbn. tauto.
  - unfold landing_exclusive, at_most_one_mode. cbn. tauto.
  - unfold landing_exclusive, at_most_one_mode. cbn. tauto.
  - unfold landing_exclusive, at_most_one_mode. cbn. tauto.
Qed.

Lemma step_altitude_density (e : Event) (st : Sim) :
  (0 <= altitude st -> 0 <= altitude (step e st))
  /\ airDensity (params (step e st)) = airDensity (params st).
Proof.
  destruct e; cbn [step].
  - split.
    + intro H. unfold loop.
      destruct (negb (isPaused st)); [|exact H].
      destruct (landingBranch st (altHoldBranch st (params st)))
        as [[p l] s].
      cbn [altitude]. apply updateAltitude_nonneg.
    + rewrite loop_params.
      destruct (negb (isPaused st)); [|reflexivity].
      destruct (altHoldBranch_frame st (params st)) as [Ha _].
      destruct (landingBranch_frame st (altHoldBranch st (params st)))
        as [Hl _].
      destruct (same_airframe_trans _ _ _ Ha Hl) as (_ & _ & _ & _ & H & _).
      exact H.
  - rewrite autoMissionTick_params. split.
    + unfold autoMissionTick.
      destruct (autoThrottle st && negb (isPaused st)
                && negb (isLanding st)); [|intro H; exact H].
      destruct (autoMissionUpdater _ _ _) as [p h]. cbn. intro H; exact H.
    + destruct (autoThrottle st && negb (isPaused st)
                && negb (isLanding st)); [|reflexivity].
      destruct (autoMissionUpdater_frame (altitude st)
                  (results (params st) (altitude st)) (params st))
        as (_ & _ & _ & _ & H & _).
      exact H.
  - destruct m; cbn [toggle].
    + unfold toggleAutoV; cbn. tauto.
    + unfold toggleAltHold.
      destruct (isLanding st || autoThrottle st); cbn; tauto.
    + unfold toggleLanding.
      destruct (negb (isFlying (results (params st) (altitude st)))
                && js_le (altitude st) 0); cbn; tauto.
  - cbn. tauto.
  - cbn. split; [intros _; lra | reflexivity].
  - cbn. tauto.
  - unfold inputVelocity.
    destruct (isLanding st || autoThrottle st); cbn; tauto.
  - unfold inputAngleOfAttack.
    destruct (isAltHold st || isLanding st || autoThrottle st); cbn; tauto.
  - cbn. tauto.
  - cbn. tauto.
  - cbn. tauto.
  - cbn. tauto.
Qed.

(** X29.  Whatever the user and the timers do, from the initial state on:
    autoland is never on together with auto-mission or altitude hold; the
    altitude is never negative; and the [airDensity] field, which the
    dashboard reads, keeps its sea-level value.  If no auto-mission tick
    occurs, at most one of the three modes is on. *)
Theorem reachable_state_invariants (es : list Event) :
  let st := run es initialSim in
  landing_exclusive st = true
  /\ 0 <= altitude st
  /\ airDensity (params st) = SEA_LEVEL_AIR_DENSITY
  /\ (forallb (fun e => negb (is_mission_tick e)) es = true ->
      at_most_one_mode st = true).
Proof.
  cbv zeta.
  assert (Hgen : forall es st,
    landing_exclusive st = true -> 0 <= altitude st ->
    landing_exclusive (run es st) = true
    /\ 0 <= altitude (run es st)
    /\ airDensity (params (run es st)) = airDensity (params st)
    /\ (forallb (fun e => negb (is_mission_tick e)) es = true ->
        at_most_one_mode st = true ->
        at_most_one_mode (run es st) = true)).
  { clear es. induction es as [|e es IH]; intros st Hl Ha.
    - cbn. repeat split; try assumption; try reflexivity.
      intros _ H; exact H.
    - cbn [run forallb].
      destruct (step_flags e st) as [F1 F2].
      destruct (step_altitude_density e st) as [A1 A2].
      destruct (IH (step e st) (F1 Hl) (A1 Ha)) as (I1 & I2 & I3 & I4).
      split; [exact I1|]. split; [exact I2|].
      split; [rewrite I3; exact A2|].
      intros Hno Hone. apply andb_true_iff in Hno. destruct Hno as [N1 N2].
      apply negb_true_iff in N1. apply I4; [exact N2|].
      apply F2; assumption. }
  destruct (Hgen es initialSim) as (H1 & H2 & H3 & H4);
    [reflexivity | cbn; lra|].
  split; [exact H1|]. split; [exact H2|]. split; [exact H3|].
  intro Hno. apply H4; [exact Hno | reflexivity].
Qed.

Lemma reachable_state_invariants_witness :
  at_most_one_mode
    (run [InputVelocity 220; Frame 16; Press AltitudeHold; Press Autoland;
          Frame 33; Press AutoMission] initialSim) = true.
Proof.
  apply (reachable_state_invariants
           [InputVelocity 220; Frame 16; Press AltitudeHold; Press Autoland;
            Frame 33; Press AutoMission]).
  reflexivity.
Defined.
